(** * checkTech: the twelve-scenario classifier of [app.py]

    A shallow embedding of the pure logic of [app.py]:
    - [get_scenario_analysis]: the dictionary of twelve scenarios keyed by a
      triple of labels, read with a default;
    - the indicator columns added to the downloaded frame (rolling means of
      the close over 5, 10, 20 and 60 rows, and the difference of the
      20-row mean);
    - the per-row derivation of the three labels and the result row;
    - the date filter of [analyze_stock] and the validation of [main].

    Numbers are Python floats, that is IEEE 754 binary64: they are modelled by
    Rocq's primitive [float], whose operations are the processor's, and an
    absent value is NaN, as pandas has it.  The rolling mean and the
    difference are library calls; they are modelled after pandas' own
    computation, state by state.  Dates are proleptic Gregorian ordinals, as
    [datetime.date.toordinal] gives them. *)

From Stdlib Require Import ZArith List Bool Lia Floats Sorted.
From stdpp Require Import gmap strings list.
Import ListNotations.

Set Warnings "-inexact-float".
Local Open Scope string_scope.
Local Open Scope Z_scope.

(** * Part I: the program

    ** Binary64

    The comparisons of Python are those of the processor: every comparison
    with NaN is false. *)

Module F64.

(** Python's [x > y]. *)
Definition gtb (x y : float) : bool := (y <? x)%float.

(** [pandas.isna] on a float. *)
Definition absent (x : float) : Prop := is_nan x = true.
Definition present (x : float) : Prop := is_nan x = false.

(** Sign bookkeeping.  A float is "not negative" when it is NaN, a zero of
    either sign, or an infinity or a finite number with the sign bit clear. *)
Definition SFnot_negative (t : spec_float) : Prop :=
  match t with
  | S754_nan | S754_zero _ => True
  | S754_infinity s | S754_finite s _ _ => s = false
  end.

(** The same on primitive floats. *)
Definition not_negative (x : float) : Prop := SFnot_negative (Prim2SF x).

End F64.

(** ** The twelve scenarios: [get_scenario_analysis] *)

(** The tuple [(ID, description, inference, status tag)] stored in the
    dictionary, with the names the caller unpacks it to. *)
Record ScenarioRecord : Type := mkScenario {
  sid : Z;
  desc : string;
  conclusion : string;
  tag : string
}.

(** The three factors.  The program passes them as free-form labels; the
    enumerations name the values the classifier can produce. *)
Inductive SlopeDirection : Type := Up | Flat | Down.
Inductive PricePosition : Type := Above | Below.
Inductive Alignment : Type := Bullish | NoAlignment.

Definition slope_label (s : SlopeDirection) : string :=
  match s with Up => "上彎" | Flat => "持平" | Down => "下彎" end.

Definition position_label (p : PricePosition) : string :=
  match p with Above => "之上" | Below => "之下" end.

Definition alignment_label (a : Alignment) : string :=
  match a with Bullish => "多頭排列" | NoAlignment => "無" end.

(** The items of the dictionary literal, in source order. *)
Definition scenario_items : list (string * string * string * ScenarioRecord) :=
  [ (("上彎", "之上", "多頭排列"),
     mkScenario 1 "主升段 / 強勢股" "【最強多頭】最佳買點或續抱，拉回不破均線皆是買點。" "🟢 多頭");
    (("上彎", "之上", "無"),
     mkScenario 2 "初升段 / 震盪走高" "【震盪盤堅】短期強勢，但長線架構未成，短多操作。" "🟡 震盪偏多");
    (("上彎", "之下", "多頭排列"),
     mkScenario 3 "回檔修正 (黃金坑)" "【找買點】俗稱回馬槍。趨勢仍好僅股價回檔，找支撐低接。" "🟢 多頭回檔");
    (("上彎", "之下", "無"),
     mkScenario 4 "多頭轉弱 / 做頭" "【多單離場】上方無保護，趨勢可能轉弱。" "🟠 轉弱警戒");
    (("持平", "之上", "多頭排列"),
     mkScenario 5 "強勢整理 / 蓄勢" "【準備噴出】賣壓消化完畢，突破前兆。" "🟢 蓄勢待發");
    (("持平", "之上", "無"),
     mkScenario 6 "箱型整理 (區間上緣)" "【觀望/短打】隨時可能被打回箱型下緣，防假突破。" "⚪ 盤整觀望");
    (("持平", "之下", "多頭排列"),
     mkScenario 7 "假跌破 / 深度洗盤" "【觀察支撐】需在3日內站回，否則破壞結構。" "🟠 觀察支撐");
    (("持平", "之下", "無"),
     mkScenario 8 "弱勢整理 (區間下緣)" "【偏空看待】無支撐力，容易演變成續跌。" "🔴 盤整偏空");
    (("下彎", "之上", "多頭排列"),
     mkScenario 9 "矛盾 / 極端V轉" "【罕見/警戒】極短線暴漲，留意劇烈波動 (理論矛盾區)。" "🟣 特殊情境");
    (("下彎", "之上", "無"),
     mkScenario 10 "空頭反彈 (逃命波)" "【找賣點】蓋頭反壓，容易誘多殺多。" "🔴 空頭反彈");
    (("下彎", "之下", "多頭排列"),
     mkScenario 11 "矛盾 / 急殺" "【結構破壞】多頭遭崩盤式急殺，趨勢毀滅開始 (理論矛盾區)。" "🟣 特殊情境");
    (("下彎", "之下", "無"),
     mkScenario 12 "主跌段 / 空頭排列" "【絕對空頭】趨勢向下、均線壓制，切勿接刀。" "⚫ 絕對空頭") ].

(** The dictionary [scenarios].  A Python literal keeps the last value of a
    repeated key and [list_to_map] the first; the keys are pairwise distinct
    ([scenario_keys_NoDup]), so the two agree. *)
Definition scenarios : gmap (string * string * string) ScenarioRecord :=
  list_to_map scenario_items.

(** The default of [scenarios.get(key, ...)]. *)
Definition unknown_scenario : ScenarioRecord :=
  mkScenario 0 "未知情境" "無法判斷" "⚪ 未知".

Definition get_scenario_analysis (slope position alignment : string) : ScenarioRecord :=
  let key := (slope, position, alignment) in
  default unknown_scenario (scenarios !! key).

Arguments get_scenario_analysis : simpl never.

(** The lookup at a triple of the enumerations. *)
Definition lookup (s : SlopeDirection) (p : PricePosition) (a : Alignment) : ScenarioRecord :=
  get_scenario_analysis (slope_label s) (position_label p) (alignment_label a).

(** The double-quote character, for the two descriptions that quote a phrase. *)
Definition dquote : string := String (Ascii.ascii_of_nat 34) EmptyString.

(** Section 4.2 of the specification prints the table in English with the
    columns ID, Description and Status.  [spec_table] is that table, word for
    word; it is compared with the dictionary of the program below. *)
Definition spec_table (s : SlopeDirection) (p : PricePosition) (a : Alignment)
  : Z * string * string :=
  match s, p, a with
  | Up, Above, Bullish => (1, "Primary markup / strong stock", "Strong bull")
  | Up, Above, NoAlignment => (2, "Early markup / choppy rally", "Mild bull (choppy)")
  | Up, Below, Bullish => (3, "Pullback within uptrend (" +:+ dquote +:+ "golden pit" +:+ dquote +:+ ")", "Bull pullback")
  | Up, Below, NoAlignment => (4, "Trend weakening / topping", "Weakness warning")
  | Flat, Above, Bullish => (5, "Strong consolidation / coiling", "Poised to break out")
  | Flat, Above, NoAlignment => (6, "Range-bound, near upper edge", "Wait-and-see")
  | Flat, Below, Bullish => (7, "False breakdown / deep shakeout", "Watch support")
  | Flat, Below, NoAlignment => (8, "Weak consolidation, near lower edge", "Mild bear (range)")
  | Down, Above, Bullish => (9, "Contradictory / extreme V-reversal", "Special / rare")
  | Down, Above, NoAlignment => (10, "Bear-market rally (" +:+ dquote +:+ "dead-cat bounce" +:+ dquote +:+ ")", "Look for exit")
  | Down, Below, Bullish => (11, "Contradictory / sharp sell-off", "Structure broken")
  | Down, Below, NoAlignment => (12, "Primary downtrend / bearish alignment", "Absolute bear")
  end.

Definition spec_id (s : SlopeDirection) (p : PricePosition) (a : Alignment) : Z :=
  fst (fst (spec_table s p a)).

(** ** Dates

    A [datetime.date] is represented by its proleptic Gregorian ordinal
    ([date.toordinal()]): comparison of dates is comparison of ordinals,
    [(d2 - d1).days] is their difference and [d - timedelta(days=n)] is
    [d - n].  [ymd2ord] is CPython's [_ymd2ord], used to write dates down. *)

Definition is_leap (year : Z) : bool :=
  (year mod 4 =? 0) && (negb (year mod 100 =? 0) || (year mod 400 =? 0)).

Definition days_before_year (year : Z) : Z :=
  let y := year - 1 in y * 365 + y / 4 - y / 100 + y / 400.

Definition DAYS_BEFORE_MONTH : list Z :=
  [0; 0; 31; 59; 90; 120; 151; 181; 212; 243; 273; 304; 334].

Definition days_before_month (year month : Z) : Z :=
  nth (Z.to_nat month) DAYS_BEFORE_MONTH 0
  + (if (month >? 2) && is_leap year then 1 else 0).

Definition ymd2ord (year month day : Z) : Z :=
  days_before_year year + days_before_month year month + day.

(** ** The frame and its indicator columns *)

(** A row of the downloaded frame: the date of its index and the one column
    the program reads. *)
Record PriceBar : Type := mkPriceBar {
  pb_date : Z;
  pb_close : float
}.

(** A row of the frame once the five columns are added. *)
Record IndicatorBar : Type := mkIndicatorBar {
  Date : Z;
  Close : float;
  MA5 : float;
  MA10 : float;
  MA20 : float;
  MA60 : float;
  MA20_Slope_Val : float
}.

(** ** [Series.rolling(window).mean()]

    The program calls pandas for the four moving averages.  pandas is not
    part of the repository; the definitions below follow its fixed-window
    rolling mean step by step: infinite values are first replaced by NaN,
    then one state is carried from row to row, the value that leaves the
    window being removed from a compensated (Kahan) running sum and the new
    value added to it.  NaN values are skipped and only counted as missing;
    a row whose window holds fewer than [min_periods] observed values gets
    NaN ([min_periods] defaults to the window size); a window of equal
    values gets that value; and the sign of the mean is clamped to the sign
    of the values when they all have the same sign. *)

(** Infinities are treated as missing values. *)
Definition prep_values (values : list float) : list float :=
  map (fun v => if is_infinity v then nan else v) values.

(** The running state of the mean: number of observed values, compensated
    sum, number of negative values, the two compensations, and the length
    and value of the current run of equal values. *)
Record MeanState : Type := mkMeanState {
  nobs : Z;
  sum_x : float;
  neg_ct : Z;
  compensation_add : float;
  compensation_remove : float;
  num_consecutive_same_value : Z;
  prev_value : float
}.

Definition setup_state (first : float) : MeanState :=
  {| nobs := 0; sum_x := 0; neg_ct := 0;
     compensation_add := 0; compensation_remove := 0;
     num_consecutive_same_value := 0; prev_value := first |}.

(** The sign bit of a float that is not NaN (true for -0.0). *)
Definition signbit (x : float) : bool := get_sign x.

Definition add_mean (val : float) (st : MeanState) : MeanState :=
  if (val =? val)%float then
    let y := (val - compensation_add st)%float in
    let t := (sum_x st + y)%float in
    {| nobs := nobs st + 1;
       sum_x := t;
       neg_ct := if signbit val then neg_ct st + 1 else neg_ct st;
       compensation_add := (t - sum_x st - y)%float;
       compensation_remove := compensation_remove st;
       num_consecutive_same_value :=
         if (val =? prev_value st)%float
         then num_consecutive_same_value st + 1 else 1;
       prev_value := val |}
  else st.

Definition remove_mean (val : float) (st : MeanState) : MeanState :=
  if (val =? val)%float then
    let y := (- val - compensation_remove st)%float in
    let t := (sum_x st + y)%float in
    {| nobs := nobs st - 1;
       sum_x := t;
       neg_ct := if signbit val then neg_ct st - 1 else neg_ct st;
       compensation_add := compensation_add st;
       compensation_remove := (t - sum_x st - y)%float;
       num_consecutive_same_value := num_consecutive_same_value st;
       prev_value := prev_value st |}
  else st.

Definition float_of_Z (z : Z) : float := of_uint63 (Uint63.of_Z z).

Definition calc_mean (minp : Z) (st : MeanState) : float :=
  if (minp <=? nobs st) && (0 <? nobs st) then
    let result := (sum_x st / float_of_Z (nobs st))%float in
    if nobs st <=? num_consecutive_same_value st then prev_value st
    else if (neg_ct st =? 0) && (result <? 0)%float then 0%float
    else if (neg_ct st =? nobs st) && (0 <? result)%float then 0%float
    else result
  else nan.

(** The bounds of the window of row [i]: [start = max(0, i + 1 - window)]
    and [end = i + 1]. *)
Definition window_start (window i : nat) : nat := (S i - window)%nat.
Definition window_end (i : nat) : nat := S i.

Definition add_values (values : list float) (from to : nat) (st : MeanState) : MeanState :=
  fold_left (fun st j => add_mean (nth j values nan) st) (seq from (to - from)) st.

Definition remove_values (values : list float) (from to : nat) (st : MeanState) : MeanState :=
  fold_left (fun st j => remove_mean (nth j values nan) st) (seq from (to - from)) st.

(** The state after row [i]: set up afresh on the first row (and whenever the
    window does not overlap the previous one), otherwise the previous state
    with the values that left the window removed and the new ones added. *)
Fixpoint roll_state (values : list float) (window : nat) (i : nat) : MeanState :=
  let s := window_start window i in
  let e := window_end i in
  match i with
  | O => add_values values s e (setup_state (nth s values nan))
  | S i' =>
      if (window_end i' <=? s)%nat
      then add_values values s e (setup_state (nth s values nan))
      else add_values values (window_end i') e
             (remove_values values (window_start window i') s
                (roll_state values window i'))
  end.

Definition roll_mean (values : list float) (window : nat) (minp : Z) : list float :=
  map (fun i => calc_mean minp (roll_state values window i)) (seq 0 (length values)).

Definition rolling_mean (window : nat) (xs : list float) : list float :=
  roll_mean (prep_values xs) window (Z.of_nat window).

(** [Series.diff()]: each value minus the previous one; the first row has no
    previous value and gets NaN. *)
Fixpoint diff_from (prev : float) (xs : list float) : list float :=
  match xs with
  | [] => []
  | x :: rest => (x - prev)%float :: diff_from x rest
  end.

Definition diff (xs : list float) : list float := diff_from nan xs.

(** Step 4 of [analyze_stock]: the columns MA5, MA10, MA20, MA60 and
    MA20_Slope_Val are computed from the Close column and attached row by
    row. *)
Definition add_indicators (df : list PriceBar) : list IndicatorBar :=
  let close := map pb_close df in
  let ma5 := rolling_mean 5 close in
  let ma10 := rolling_mean 10 close in
  let ma20 := rolling_mean 20 close in
  let ma60 := rolling_mean 60 close in
  let ma20_slope_val := diff ma20 in
  imap (fun i b =>
          {| Date := pb_date b;
             Close := pb_close b;
             MA5 := nth i ma5 nan;
             MA10 := nth i ma10 nan;
             MA20 := nth i ma20 nan;
             MA60 := nth i ma60 nan;
             MA20_Slope_Val := nth i ma20_slope_val nan |}) df.

(** Whether a value is observed (not NaN), as the test [val == val] of the
    running mean, and the number of observed values at the indices
    [from .. to - 1]. *)
Definition observed (v : float) : bool := (v =? v)%float.

Definition count_observed (values : list float) (from to : nat) : Z :=
  Z.of_nat (length (List.filter (fun j => observed (nth j values nan))
                                (seq from (to - from)))).

(** Row [i] of the frame with its indicators, column by column. *)
Definition indicator_bar_at (df : list PriceBar) (i : nat) (b : PriceBar) : IndicatorBar :=
  let close := map pb_close df in
  {| Date := pb_date b;
     Close := pb_close b;
     MA5 := nth i (rolling_mean 5 close) nan;
     MA10 := nth i (rolling_mean 10 close) nan;
     MA20 := nth i (rolling_mean 20 close) nan;
     MA60 := nth i (rolling_mean 60 close) nan;
     MA20_Slope_Val := nth i (diff (rolling_mean 20 close)) nan |}.

(** A value whose sign bit is clear: it is NaN or not negative, and when it
    is observed its sign bit is not set. *)
Definition clear_sign (v : float) : Prop :=
  F64.not_negative v /\ (observed v = true -> signbit v = false).

(** ** The per-row classification (step 6 of [analyze_stock]) *)

Definition slope_threshold (row : IndicatorBar) : float :=
  (MA20 row * 0.0005)%float.

Definition slope_status (row : IndicatorBar) : string :=
  let slope_val := MA20_Slope_Val row in
  if F64.gtb slope_val (slope_threshold row) then "上彎"
  else if (slope_val <? - slope_threshold row)%float then "下彎"
  else "持平".

Definition pos_status (row : IndicatorBar) : string :=
  if F64.gtb (Close row) (MA20 row) then "之上" else "之下".

Definition align_status (row : IndicatorBar) : string :=
  if F64.gtb (MA5 row) (MA10 row) && F64.gtb (MA10 row) (MA20 row)
     && F64.gtb (MA20 row) (MA60 row)
  then "多頭排列" else "無".

Definition scenario_of (row : IndicatorBar) : ScenarioRecord :=
  get_scenario_analysis (slope_status row) (pos_status row) (align_status row).

(** The dictionary appended to [results]; the comments give its keys.  The
    date is kept as a date, where the program formats it as text. *)
Record ResultRow : Type := mkResultRow {
  r_date : Z;            (* 日期 *)
  r_close : float;       (* 收盤價 *)
  r_tag : string;        (* 趨勢標籤 *)
  r_sid : Z;             (* 情境編號 *)
  r_desc : string;       (* 情境描述 *)
  r_conclusion : string; (* 操作推論 *)
  r_slope : string;      (* 月線斜率 *)
  r_pos : string;        (* 股價位置 *)
  r_align : string       (* 均線狀態 *)
}.

Definition analyze_row (row : IndicatorBar) : ResultRow :=
  let s := scenario_of row in
  {| r_date := Date row;
     r_close := Close row;
     r_tag := tag s;
     r_sid := sid s;
     r_desc := desc s;
     r_conclusion := conclusion s;
     r_slope := slope_status row;
     r_pos := pos_status row;
     r_align := align_status row |}.

(** ** [analyze_stock] and [main] *)

(** What [analyze_stock] shows: the error for an empty download, the warning
    for a window without rows, or the table of results with the chart data
    (Close, MA20, MA60 of the rows of the window).  The handler that closes
    the function reports the exceptions of the provider and of pandas; the
    float comparisons and the dictionary read with a default raise none, so
    the steps modelled here have no failing case. *)
Inductive Outcome : Type :=
| NoDataError (ticker : string)
| NoTradingWarning
| Shown (results : list ResultRow) (chart_data : list (float * float * float)).

Definition results_of (o : Outcome) : list ResultRow :=
  match o with
  | Shown results _ => results
  | NoDataError _ | NoTradingWarning => []
  end.

(** What [main] does once the inputs are read. *)
Inductive MainOutcome : Type :=
| NotRun
| RangeTooLongError (date_diff : Z)
| EndBeforeStartError
| Analyzed (o : Outcome).

Definition in_range (start_date end_date : Z) (row : IndicatorBar) : bool :=
  (start_date <=? Date row) && (Date row <=? end_date).

Section Orchestration.

(** [yf.download(ticker, start=..., end=...)]: the market-data provider,
    whose answer is the rows of the frame in date order. *)
Variable yf_download : string -> Z -> Z -> list PriceBar.

Definition analyze_stock (ticker : string) (start_date end_date : Z) : Outcome :=
  let fetch_start := start_date - 120 in
  let df := yf_download ticker fetch_start (end_date + 1) in
  match df with
  | [] => NoDataError ticker
  | _ :: _ =>
      let df := add_indicators df in
      let target_df := List.filter (in_range start_date end_date) df in
      match target_df with
      | [] => NoTradingWarning
      | _ :: _ =>
          Shown (map analyze_row target_df)
                (map (fun row => (Close row, MA20 row, MA60 row)) target_df)
      end
  end.

Definition main (ticker : string) (start_input end_input : Z) (run_btn : bool)
  : MainOutcome :=
  let date_diff := end_input - start_input in
  if run_btn then
    if date_diff >? 10 then RangeTooLongError date_diff
    else if date_diff <? 0 then EndBeforeStartError
    else Analyzed (analyze_stock ticker start_input end_input)
  else NotRun.

(** The frame downloaded for a request, and the rows of the requested
    window once the indicator columns are added. *)
Definition downloaded (ticker : string) (start_date end_date : Z) : list PriceBar :=
  yf_download ticker (start_date - 120) (end_date + 1).

Definition target_rows (ticker : string) (start_date end_date : Z) : list IndicatorBar :=
  List.filter (in_range start_date end_date)
              (add_indicators (downloaded ticker start_date end_date)).

End Orchestration.

Definition is_validation_error (o : MainOutcome) : bool :=
  match o with
  | RangeTooLongError _ | EndBeforeStartError => true
  | NotRun | Analyzed _ => false
  end.

(** ** Concrete frames *)

(** Sixty-five daily rows from 2024-01-01 on, all closing at 100. *)
Definition flat_series : list PriceBar :=
  map (fun i => mkPriceBar (ymd2ord 2024 1 1 + Z.of_nat i) 100%float) (seq 0 65).

(** A download of a single row, dated 2024-01-02. *)
Definition lone_bar : list PriceBar := [mkPriceBar (ymd2ord 2024 1 2) 100%float].

Definition provider_of (df : list PriceBar) : string -> Z -> Z -> list PriceBar :=
  fun _ _ _ => df.

(** Rows with hand-picked indicators. *)
Definition falling_row : IndicatorBar :=
  mkIndicatorBar (ymd2ord 2024 1 2) 99 100 100 100 100 (-0.0501).

Definition level_row : IndicatorBar :=
  mkIndicatorBar (ymd2ord 2024 1 2) 100 100 100 100 100 0.

Definition fresh_row : IndicatorBar :=
  mkIndicatorBar (ymd2ord 2024 1 2) 100 nan nan nan nan nan.

(** ** The order of the dictionary

    The literal lists its entries by slope (three groups of four), then by
    position, then by alignment; the ranks below number the values in that
    order. *)
Definition slope_rank (s : SlopeDirection) : Z :=
  match s with Up => 0 | Flat => 1 | Down => 2 end.

Definition position_rank (p : PricePosition) : Z :=
  match p with Above => 0 | Below => 1 end.

Definition alignment_rank (a : Alignment) : Z :=
  match a with Bullish => 0 | NoAlignment => 1 end.

Definition scenario_number (s : SlopeDirection) (p : PricePosition) (a : Alignment) : Z :=
  1 + 4 * slope_rank s + 2 * position_rank p + alignment_rank a.

(** A frame of three rows whose second close is missing. *)
Definition gapped_series : list PriceBar :=
  [ mkPriceBar (ymd2ord 2024 1 2) 100%float;
    mkPriceBar (ymd2ord 2024 1 3) nan;
    mkPriceBar (ymd2ord 2024 1 4) 101%float ].

(** Sixty-five rows closing at 100, except that the close of row 50 is
    missing. *)
Definition holed_series : list PriceBar :=
  map (fun i => mkPriceBar (ymd2ord 2024 1 1 + Z.of_nat i)
                  (if (i =? 50)%nat then nan else 100%float)) (seq 0 65).


(** A row with its slope replaced, the other columns kept. *)
Definition with_slope (row : IndicatorBar) (slope_val : float) : IndicatorBar :=
  {| Date := Date row; Close := Close row;
     MA5 := MA5 row; MA10 := MA10 row; MA20 := MA20 row; MA60 := MA60 row;
     MA20_Slope_Val := slope_val |}.

(** Up and Down exchanged, Flat kept. *)
Definition mirror (s : SlopeDirection) : SlopeDirection :=
  match s with Up => Down | Flat => Flat | Down => Up end.

(** * Part II: the properties

    ** Binary64 facts used by the classifier

    The facts below are derived from the specification of the primitive
    operations over [spec_float]. *)

Module F64Facts.
Import F64.

Lemma SFcompare_refl (x : spec_float) :
  x <> S754_nan -> SFcompare x x = Some Eq.
Proof.
  destruct x as [s|s| |s m e]; simpl; intros H; try congruence.
  - destruct s; reflexivity.
  - rewrite Z.compare_refl.
    change (Pos.compare_cont Eq m m) with (Pos.compare m m).
    rewrite Pos.compare_refl. destruct s; reflexivity.
Qed.

Lemma is_nan_spec (x : float) : is_nan x = true <-> Prim2SF x = S754_nan.
Proof.
  unfold is_nan. rewrite FloatAxioms.eqb_spec. unfold SFeqb. split.
  - intros H. destruct (Prim2SF x) as [s|s| |s m e] eqn:E; try reflexivity;
      rewrite SFcompare_refl in H by discriminate; discriminate.
  - intros ->. reflexivity.
Qed.

Lemma absent_nan : absent nan.
Proof. reflexivity. Qed.

Lemma absent_eq (x : float) : absent x <-> x = nan.
Proof.
  split.
  - intros H. apply is_nan_spec in H. apply Prim2SF_inj. rewrite H. reflexivity.
  - intros ->. reflexivity.
Qed.

Lemma present_not_absent (x : float) : present x <-> ~ absent x.
Proof. unfold present, absent. destruct (is_nan x); split; congruence. Qed.

(** Comparisons with NaN are false. *)
Lemma ltb_absent_l (x y : float) : absent x -> (x <? y)%float = false.
Proof.
  intros H. apply is_nan_spec in H. rewrite FloatAxioms.ltb_spec, H. reflexivity.
Qed.

Lemma ltb_absent_r (x y : float) : absent y -> (x <? y)%float = false.
Proof.
  intros H. apply is_nan_spec in H. rewrite FloatAxioms.ltb_spec, H.
  unfold SFltb. destruct (Prim2SF x); reflexivity.
Qed.

Lemma ltb_true_present (x y : float) :
  (x <? y)%float = true -> present x /\ present y.
Proof.
  intros H. unfold present. split.
  - destruct (is_nan x) eqn:E; [|reflexivity].
    rewrite (ltb_absent_l x y E) in H. discriminate.
  - destruct (is_nan y) eqn:E; [|reflexivity].
    rewrite (ltb_absent_r x y E) in H. discriminate.
Qed.

(** NaN propagates through the arithmetic the program uses. *)
Lemma mul_absent_l (x y : float) : absent x -> absent (x * y)%float.
Proof.
  intros H. apply is_nan_spec in H. apply is_nan_spec.
  rewrite FloatAxioms.mul_spec, H. reflexivity.
Qed.

Lemma opp_absent (x : float) : absent x -> absent (- x)%float.
Proof.
  intros H. apply is_nan_spec in H. apply is_nan_spec.
  rewrite FloatAxioms.opp_spec, H. reflexivity.
Qed.

Lemma sub_absent_l (x y : float) : absent x -> absent (x - y)%float.
Proof.
  intros H. apply is_nan_spec in H. apply is_nan_spec.
  rewrite FloatAxioms.sub_spec, H. reflexivity.
Qed.

Lemma sub_absent_r (x y : float) : absent y -> absent (x - y)%float.
Proof.
  intros H. apply is_nan_spec in H. apply is_nan_spec.
  rewrite FloatAxioms.sub_spec, H. unfold SF64sub, SFsub. destruct (Prim2SF x); reflexivity.
Qed.

(** The order is strict: nothing is below itself, and two equal floats
    (in the sense of [==], which identifies the two zeros) are not ordered. *)
Lemma SFcompare_Eq_sym (x y : spec_float) :
  SFcompare x y = Some Eq -> SFcompare y x = Some Eq.
Proof.
  destruct x as [s|s| |s m e], y as [t|t| |t n f]; simpl;
    try destruct s; try destruct t; try discriminate; try reflexivity.
  - destruct (Z.compare e f) eqn:Ez; try discriminate.
    apply Z.compare_eq in Ez. subst f. rewrite Z.compare_refl.
    change (Pos.compare_cont Eq m n) with (Pos.compare m n).
    change (Pos.compare_cont Eq n m) with (Pos.compare n m).
    destruct (Pos.compare m n) eqn:Ep; try discriminate.
    apply Pos.compare_eq in Ep. subst n. rewrite Pos.compare_refl. reflexivity.
  - destruct (Z.compare e f) eqn:Ez; try discriminate.
    apply Z.compare_eq in Ez. subst f. rewrite Z.compare_refl.
    change (Pos.compare_cont Eq m n) with (Pos.compare m n).
    change (Pos.compare_cont Eq n m) with (Pos.compare n m).
    destruct (Pos.compare m n) eqn:Ep; try discriminate.
    apply Pos.compare_eq in Ep. subst n. rewrite Pos.compare_refl. reflexivity.
Qed.

Lemma eqb_not_ltb (x y : float) :
  (x =? y)%float = true -> (y <? x)%float = false.
Proof.
  rewrite FloatAxioms.eqb_spec, FloatAxioms.ltb_spec. unfold SFeqb, SFltb.
  destruct (SFcompare (Prim2SF x) (Prim2SF y)) as [[| |]|] eqn:E; try discriminate.
  intros _. rewrite (SFcompare_Eq_sym _ _ E). reflexivity.
Qed.


Lemma binary_round_aux_not_negative (mx ex : Z) (lx : location) :
  SFnot_negative (binary_round_aux prec emax false mx ex lx).
Proof.
  unfold binary_round_aux.
  destruct (shr_fexp prec emax mx ex lx) as [mrs' e'].
  destruct (shr_fexp prec emax _ e' loc_Exact) as [mrs'' e''].
  destruct (shr_m mrs'') as [|p|p]; simpl; trivial.
  destruct (Z.leb e'' (Z.sub emax prec)); reflexivity.
Qed.

Lemma SFmul_not_negative (x y : spec_float) :
  SFnot_negative x -> SFnot_negative y -> SFnot_negative (SF64mul x y).
Proof.
  destruct x as [s|s| |s m e], y as [t|t| |t n f]; simpl; intros Hx Hy;
    subst; simpl; trivial.
  apply binary_round_aux_not_negative.
Qed.

Lemma SFleb_zero_not_negative (x : spec_float) :
  SFleb (S754_zero false) x = true -> SFnot_negative x.
Proof. destruct x as [s|s| |s m e]; simpl; trivial; destruct s; easy. Qed.

Lemma SFltb_zero_not_negative (x : spec_float) :
  SFltb (S754_zero false) x = true -> SFnot_negative x.
Proof. destruct x as [s|s| |s m e]; simpl; trivial; destruct s; easy. Qed.

Lemma SFltb_above_not_below_opp (t s : spec_float) :
  SFnot_negative t -> SFltb t s = true -> SFltb s (SFopp t) = false.
Proof.
  destruct t as [b|b| |b m e], s as [c|c| |c n f]; simpl; intros Ht H;
    subst; try discriminate; try reflexivity;
    destruct c; try discriminate; try reflexivity; destruct b; reflexivity.
Qed.

(** With a threshold [m * c] built from [m >= 0] and [c > 0], a value above
    the threshold is never below its opposite: the two tests of the slope
    cannot both succeed. *)
Lemma above_threshold_not_below (m c s : float) :
  (0 <=? m)%float = true -> (0 <? c)%float = true ->
  (m * c <? s)%float = true -> (s <? - (m * c))%float = false.
Proof.
  rewrite FloatAxioms.leb_spec, !FloatAxioms.ltb_spec, FloatAxioms.opp_spec,
    FloatAxioms.mul_spec.
  change (Prim2SF 0) with (S754_zero false).
  intros Hm Hc. apply SFltb_above_not_below_opp, SFmul_not_negative.
  - now apply SFleb_zero_not_negative.
  - now apply SFltb_zero_not_negative.
Qed.

Lemma positive_not_negative (x : float) : (0 <? x)%float = true -> not_negative x.
Proof.
  unfold not_negative. rewrite FloatAxioms.ltb_spec.
  change (Prim2SF 0) with (S754_zero false). apply SFltb_zero_not_negative.
Qed.

Lemma not_negative_cases (x : float) :
  not_negative x -> absent x \/ (0 <=? x)%float = true.
Proof.
  unfold not_negative, absent. rewrite is_nan_spec, FloatAxioms.leb_spec.
  change (Prim2SF 0) with (S754_zero false).
  destruct (Prim2SF x) as [s|s| |s m e]; simpl; intros H; subst; auto.
Qed.

End F64Facts.

(** Observed values and sign bits. *)
Module F64Sign.
Import F64 F64Facts.

Lemma observed_present (v : float) : observed v = negb (is_nan v).
Proof. unfold observed, is_nan. now rewrite negb_involutive. Qed.

Lemma observed_absent (v : float) : absent v -> observed v = false.
Proof. intros H. rewrite observed_present. unfold absent in H. now rewrite H. Qed.

Lemma not_negative_nan : not_negative nan.
Proof. exact I. Qed.

Lemma not_negative_zero : not_negative 0.
Proof. exact I. Qed.

Lemma not_below_zero_not_negative (x : float) :
  (x <? 0)%float = false -> not_negative x.
Proof.
  unfold not_negative. rewrite FloatAxioms.ltb_spec.
  change (Prim2SF 0) with (S754_zero false).
  destruct (Prim2SF x) as [s|s| |s m e]; simpl; trivial; destruct s; easy.
Qed.

(** A float above zero has its sign bit clear. *)
Lemma signbit_positive (x : float) : (0 <? x)%float = true -> signbit x = false.
Proof.
  intros H. unfold signbit, get_sign, is_zero.
  rewrite FloatAxioms.ltb_spec in H. change (Prim2SF 0) with (S754_zero false) in H.
  rewrite FloatAxioms.eqb_spec. change (Prim2SF zero) with (S754_zero false).
  destruct (Prim2SF x) as [s|s| |s m e] eqn:E; simpl in H; try discriminate;
    destruct s; try discriminate; simpl;
    rewrite FloatAxioms.ltb_spec, E; reflexivity.
Qed.

End F64Sign.

(** ** The dictionary of scenarios *)

Lemma scenario_keys_NoDup : NoDup (scenario_items.*1).
Proof. apply (bool_decide_unpack _). vm_compute. reflexivity. Qed.

Lemma scenarios_size : size scenarios = 12%nat.
Proof. vm_compute. reflexivity. Qed.

(** A key of the literal is read back with its value. *)
Lemma scenarios_lookup_item (key : string * string * string) (r : ScenarioRecord) :
  In (key, r) scenario_items <-> scenarios !! key = Some r.
Proof.
  unfold scenarios. rewrite <- list_elem_of_In.
  split.
  - apply elem_of_list_to_map_1, scenario_keys_NoDup.
  - apply elem_of_list_to_map_2.
Qed.

(** A key outside the literal gets the default, scenario 0. *)
Lemma get_scenario_analysis_unknown (slope position alignment : string) :
  ~ In (slope, position, alignment) (scenario_items.*1) ->
  get_scenario_analysis slope position alignment = unknown_scenario.
Proof.
  intros H. unfold get_scenario_analysis, scenarios.
  rewrite (proj1 (not_elem_of_list_to_map _ _)); [reflexivity|].
  now rewrite list_elem_of_In.
Qed.

Lemma get_scenario_analysis_known (slope position alignment : string) (r : ScenarioRecord) :
  In ((slope, position, alignment), r) scenario_items ->
  get_scenario_analysis slope position alignment = r.
Proof.
  intros H. apply scenarios_lookup_item in H.
  unfold get_scenario_analysis. now rewrite H.
Qed.

(** The labels of distinct values are distinct strings. *)
Lemma slope_label_inj (s s' : SlopeDirection) : slope_label s = slope_label s' -> s = s'.
Proof. destruct s, s'; simpl; intros H; try reflexivity; discriminate H. Qed.

Lemma position_label_inj (p p' : PricePosition) :
  position_label p = position_label p' -> p = p'.
Proof. destruct p, p'; simpl; intros H; try reflexivity; discriminate H. Qed.

Lemma alignment_label_inj (a a' : Alignment) :
  alignment_label a = alignment_label a' -> a = a'.
Proof. destruct a, a'; simpl; intros H; try reflexivity; discriminate H. Qed.

(** C1, as the specification states it, fails: the record returned for
    (Up, Above, Bullish) is not the row that section 4.2 prints, whose text
    is English where the dictionary holds Chinese text.  Nor is the Status
    column a rendering of the status tag: the dictionary gives scenarios 9
    and 11 one and the same tag, and the printed table gives them two
    different statuses. *)
Lemma lookup_is_not_the_printed_row :
  (let r := lookup Up Above Bullish in
   (sid r, desc r, tag r) <> spec_table Up Above Bullish)
  /\ tag (lookup Down Above Bullish) = tag (lookup Down Below Bullish)
  /\ snd (spec_table Down Above Bullish) <> snd (spec_table Down Below Bullish).
Proof.
  split; [|split].
  - vm_compute. discriminate.
  - vm_compute. reflexivity.
  - vm_compute. discriminate.
Qed.

(** C1 (amended): for each of the twelve combinations the lookup returns the
    entry that the dictionary of the program stores under the three labels;
    its id is the id that section 4.2 gives to the combination, between 1 and
    12, so the result is never the default record of id 0; the description,
    the guidance and the status tag are the strings of the program, and
    different combinations get different ids. *)
Theorem lookup_returns_dictionary_entry (s : SlopeDirection) (p : PricePosition) (a : Alignment) :
  let r := lookup s p a in
  In ((slope_label s, position_label p, alignment_label a), r) scenario_items
  /\ sid r = spec_id s p a
  /\ 1 <= sid r <= 12
  /\ sid r <> 0
  /\ r <> unknown_scenario
  /\ (forall s' p' a', sid (lookup s' p' a') = sid r -> (s', p', a') = (s, p, a)).
Proof.
  assert (Hr : In ((slope_label s, position_label p, alignment_label a), lookup s p a)
                  scenario_items).
  { destruct s, p, a; vm_compute; tauto. }
  repeat split.
  - exact Hr.
  - destruct s, p, a; vm_compute; reflexivity.
  - destruct s, p, a; vm_compute; discriminate.
  - destruct s, p, a; vm_compute; discriminate.
  - destruct s, p, a; vm_compute; discriminate.
  - destruct s, p, a; vm_compute; discriminate.
  - intros s' p' a'.
    destruct s, p, a; destruct s', p', a'; vm_compute; intros H;
      first [reflexivity | discriminate H].
Qed.

(** ** The three labels of a row *)

(** Each label computed for a row is the label of a value of its
    enumeration, so the key handed to the dictionary is one of the twelve. *)
Lemma slope_status_cases (row : IndicatorBar) :
  exists s, slope_status row = slope_label s.
Proof.
  unfold slope_status.
  destruct (F64.gtb _ _); [now exists Up|].
  destruct (_ <? _)%float; [now exists Down | now exists Flat].
Qed.

Lemma pos_status_cases (row : IndicatorBar) :
  exists p, pos_status row = position_label p.
Proof.
  unfold pos_status. destruct (F64.gtb _ _); [now exists Above | now exists Below].
Qed.

Lemma align_status_cases (row : IndicatorBar) :
  exists a, align_status row = alignment_label a.
Proof.
  unfold align_status.
  destruct (_ && _); [now exists Bullish | now exists NoAlignment].
Qed.

Lemma scenario_of_lookup (row : IndicatorBar) :
  exists s p a,
    slope_status row = slope_label s /\ pos_status row = position_label p
    /\ align_status row = alignment_label a /\ scenario_of row = lookup s p a.
Proof.
  destruct (slope_status_cases row) as [s Hs], (pos_status_cases row) as [p Hp],
    (align_status_cases row) as [a Ha].
  exists s, p, a. unfold scenario_of, lookup. rewrite Hs, Hp, Ha. auto.
Qed.

Lemma lookup_sid_range (s : SlopeDirection) (p : PricePosition) (a : Alignment) :
  1 <= sid (lookup s p a) <= 12.
Proof. destruct s, p, a; vm_compute; split; discriminate. Qed.

Lemma scenario_of_sid_range (row : IndicatorBar) : 1 <= sid (scenario_of row) <= 12.
Proof.
  destruct (scenario_of_lookup row) as (s & p & a & _ & _ & _ & ->).
  apply lookup_sid_range.
Qed.

(** The slope label, test by test. *)
Lemma slope_status_up (row : IndicatorBar) :
  slope_status row = slope_label Up
  <-> (slope_threshold row <? MA20_Slope_Val row)%float = true.
Proof.
  unfold slope_status, F64.gtb. simpl.
  destruct (slope_threshold row <? MA20_Slope_Val row)%float; [tauto|].
  destruct (_ <? _)%float; split; discriminate.
Qed.

Lemma slope_status_down (row : IndicatorBar) :
  slope_status row = slope_label Down
  <-> (slope_threshold row <? MA20_Slope_Val row)%float = false
      /\ (MA20_Slope_Val row <? - slope_threshold row)%float = true.
Proof.
  unfold slope_status, F64.gtb. simpl.
  destruct (slope_threshold row <? MA20_Slope_Val row)%float.
  - split; [discriminate | intros [H _]; discriminate H].
  - destruct (_ <? _)%float; split; try tauto; try discriminate.
    intros [_ H]; discriminate H.
Qed.

Lemma slope_status_flat (row : IndicatorBar) :
  slope_status row = slope_label Flat
  <-> (slope_threshold row <? MA20_Slope_Val row)%float = false
      /\ (MA20_Slope_Val row <? - slope_threshold row)%float = false.
Proof.
  unfold slope_status, F64.gtb. simpl.
  destruct (slope_threshold row <? MA20_Slope_Val row)%float.
  - split; [discriminate | intros [H _]; discriminate H].
  - destruct (_ <? _)%float; split; try tauto; try discriminate.
    intros [_ H]; discriminate H.
Qed.

(** C4: the position is Above exactly when the close is strictly above the
    20-row mean; a close equal to the mean is Below. *)
Theorem price_position_strict (row : IndicatorBar) :
  (pos_status row = position_label Above <-> (MA20 row <? Close row)%float = true)
  /\ (pos_status row = position_label Below <-> (MA20 row <? Close row)%float = false)
  /\ ((Close row =? MA20 row)%float = true -> pos_status row = position_label Below).
Proof.
  unfold pos_status, F64.gtb. simpl.
  split; [|split].
  - destruct (MA20 row <? Close row)%float; split; try tauto; discriminate.
  - destruct (MA20 row <? Close row)%float; split; try tauto; discriminate.
  - intros Heq. rewrite (F64Facts.eqb_not_ltb _ _ Heq). reflexivity.
Qed.

(** ** The indicator columns *)

Lemma prep_values_app (xs ys : list float) :
  prep_values (xs ++ ys) = (prep_values xs ++ prep_values ys)%list.
Proof. apply map_app. Qed.

Lemma length_prep_values (xs : list float) : length (prep_values xs) = length xs.
Proof. apply length_map. Qed.

Lemma nth_prep_values (xs : list float) (j : nat) :
  nth j (prep_values xs) nan
  = if is_infinity (nth j xs nan) then nan else nth j xs nan.
Proof.
  unfold prep_values. rewrite !nth_lookup, list_lookup_fmap.
  destruct (xs !! j) as [c|]; reflexivity.
Qed.

(** The state of a window of at least two rows, row by row. *)
Lemma roll_state_first (values : list float) (window : nat) :
  (1 <= window)%nat ->
  roll_state values window 0
  = add_mean (nth 0 values nan) (setup_state (nth 0 values nan)).
Proof.
  intros Hw. simpl. unfold window_start, window_end, add_values.
  replace (1 - window)%nat with O by lia. reflexivity.
Qed.

Lemma roll_state_next (values : list float) (window i : nat) :
  (2 <= window)%nat ->
  roll_state values window (S i)
  = add_mean (nth (S i) values nan)
      (if (window <=? S i)%nat
       then remove_mean (nth (S i - window) values nan) (roll_state values window i)
       else roll_state values window i).
Proof.
  intros Hw.
  change (roll_state values window (S i))
    with (if (window_end i <=? window_start window (S i))%nat
          then add_values values (window_start window (S i)) (window_end (S i))
                 (setup_state (nth (window_start window (S i)) values nan))
          else add_values values (window_end i) (window_end (S i))
                 (remove_values values (window_start window i)
                    (window_start window (S i)) (roll_state values window i))).
  unfold window_start, window_end, add_values, remove_values.
  destruct (Nat.leb_spec (S i) (S (S i) - window)) as [H|H]; [lia|].
  replace (S (S i) - S i)%nat with 1%nat by lia.
  destruct (Nat.leb_spec window (S i)) as [Hge|Hlt].
  - replace (S (S i) - window - (S i - window))%nat with 1%nat by lia. reflexivity.
  - replace (S (S i) - window - (S i - window))%nat with 0%nat by lia. reflexivity.
Qed.

(** What one step does to the count of observed values. *)
Lemma nobs_add_mean (v : float) (st : MeanState) :
  nobs (add_mean v st) = nobs st + (if observed v then 1 else 0).
Proof. unfold add_mean, observed. destruct (v =? v)%float; simpl; lia. Qed.

Lemma nobs_remove_mean (v : float) (st : MeanState) :
  nobs (remove_mean v st) = nobs st - (if observed v then 1 else 0).
Proof. unfold remove_mean, observed. destruct (v =? v)%float; simpl; lia. Qed.

Lemma count_observed_snoc (values : list float) (a b : nat) :
  (a <= b)%nat ->
  count_observed values a (S b)
  = count_observed values a b + (if observed (nth b values nan) then 1 else 0).
Proof.
  intros H. unfold count_observed.
  replace (S b - a)%nat with (S (b - a)) by lia.
  rewrite seq_S, List.filter_app, length_app. simpl.
  replace (a + (b - a))%nat with b by lia.
  destruct (observed (nth b values nan)); simpl; lia.
Qed.

Lemma count_observed_cons (values : list float) (a b : nat) :
  (a < b)%nat ->
  count_observed values a b
  = (if observed (nth a values nan) then 1 else 0) + count_observed values (S a) b.
Proof.
  intros H. unfold count_observed.
  replace (b - a)%nat with (S (b - S a)) by lia. simpl.
  destruct (observed (nth a values nan)); simpl; lia.
Qed.

Lemma count_observed_empty (values : list float) (a : nat) :
  count_observed values a a = 0.
Proof. unfold count_observed. now rewrite Nat.sub_diag. Qed.

Lemma filter_length_bound {A : Type} (f : A -> bool) (l : list A) :
  (length (List.filter f l) <= length l)%nat
  /\ ((exists x, In x l /\ f x = false) -> (length (List.filter f l) < length l)%nat).
Proof.
  induction l as [|x l [IH1 IH2]]; simpl.
  - split; [lia|]. intros (x & [] & _).
  - destruct (f x) eqn:E; simpl.
    + split; [lia|]. intros (y & [->|Hy] & Hf); [congruence|].
      assert (length (List.filter f l) < length l)%nat by (apply IH2; eauto). lia.
    + split; lia.
Qed.

Lemma count_observed_le (values : list float) (a b : nat) :
  0 <= count_observed values a b <= Z.of_nat (b - a).
Proof.
  unfold count_observed.
  pose proof (proj1 (filter_length_bound
                       (fun j => observed (nth j values nan)) (seq a (b - a)))) as H.
  rewrite length_seq in H. lia.
Qed.

Lemma count_observed_lt (values : list float) (a b k : nat) :
  (a <= k < b)%nat -> observed (nth k values nan) = false ->
  count_observed values a b < Z.of_nat (b - a).
Proof.
  intros Hk Hobs. unfold count_observed.
  pose proof (proj2 (filter_length_bound
                       (fun j => observed (nth j values nan)) (seq a (b - a)))) as H.
  rewrite length_seq in H.
  assert (length (List.filter (fun j => observed (nth j values nan)) (seq a (b - a)))
          < b - a)%nat.
  { apply H. exists k. split; [|exact Hobs]. apply in_seq. lia. }
  lia.
Qed.

(** The running count is the number of observed values of the window. *)
Lemma nobs_roll_state (values : list float) (window i : nat) :
  (2 <= window)%nat ->
  nobs (roll_state values window i)
  = count_observed values (window_start window i) (window_end i).
Proof.
  intros Hw. unfold window_start, window_end.
  induction i as [|i IH].
  - rewrite roll_state_first by lia. rewrite nobs_add_mean. simpl.
    replace (1 - window)%nat with O by lia.
    rewrite (count_observed_snoc values 0 0) by lia.
    now rewrite count_observed_empty.
  - rewrite roll_state_next by exact Hw. rewrite nobs_add_mean.
    rewrite (count_observed_snoc values _ (S i)) by lia.
    destruct (Nat.leb_spec window (S i)) as [Hge|Hlt].
    + rewrite nobs_remove_mean, IH.
      rewrite (count_observed_cons values (S i - window) (S i)) by lia.
      replace (S (S i) - window)%nat with (S (S i - window)) by lia. lia.
    + rewrite IH.
      replace (S (S i) - window)%nat with O by lia.
      replace (S i - window)%nat with O by lia. lia.
Qed.

Lemma calc_mean_few (minp : Z) (st : MeanState) :
  nobs st < minp -> calc_mean minp st = nan.
Proof.
  intros H. unfold calc_mean.
  destruct (Z.leb_spec minp (nobs st)); [lia | reflexivity].
Qed.

Lemma length_rolling_mean (window : nat) (xs : list float) :
  length (rolling_mean window xs) = length xs.
Proof.
  unfold rolling_mean, roll_mean.
  now rewrite length_map, length_seq, length_prep_values.
Qed.

Lemma rolling_mean_nth (window : nat) (xs : list float) (i : nat) :
  (i < length xs)%nat ->
  nth i (rolling_mean window xs) nan
  = calc_mean (Z.of_nat window) (roll_state (prep_values xs) window i).
Proof.
  intros Hi. unfold rolling_mean, roll_mean.
  rewrite nth_lookup, list_lookup_fmap, lookup_seq_lt;
    [reflexivity | now rewrite length_prep_values].
Qed.

Lemma rolling_mean_nth_out (window : nat) (xs : list float) (i : nat) :
  (length xs <= i)%nat -> nth i (rolling_mean window xs) nan = nan.
Proof. intros Hi. apply nth_overflow. now rewrite length_rolling_mean. Qed.

(** Fewer than [window] rows so far: the mean is absent. *)
Lemma rolling_mean_short (window : nat) (xs : list float) (i : nat) :
  (2 <= window)%nat -> (S i < window)%nat ->
  F64.absent (nth i (rolling_mean window xs) nan).
Proof.
  intros Hw Hi. destruct (Nat.lt_ge_cases i (length xs)) as [Hlt|Hge].
  - rewrite rolling_mean_nth by exact Hlt. rewrite calc_mean_few; [reflexivity|].
    rewrite nobs_roll_state by exact Hw.
    pose proof (count_observed_le (prep_values xs) (window_start window i) (window_end i)).
    unfold window_start, window_end in *. lia.
  - now rewrite rolling_mean_nth_out.
Qed.

(** A value of the window that is not observed: the mean is absent. *)
Lemma rolling_mean_unobserved (window : nat) (xs : list float) (k i : nat) :
  (2 <= window)%nat ->
  observed (nth k (prep_values xs) nan) = false ->
  (k <= i < k + window)%nat ->
  F64.absent (nth i (rolling_mean window xs) nan).
Proof.
  intros Hw Hobs Hi. destruct (Nat.lt_ge_cases i (length xs)) as [Hlt|Hge].
  - rewrite rolling_mean_nth by exact Hlt. rewrite calc_mean_few; [reflexivity|].
    rewrite nobs_roll_state by exact Hw.
    pose proof (count_observed_lt (prep_values xs) (window_start window i)
                  (window_end i) k) as Hcount.
    unfold window_start, window_end in *.
    assert (count_observed (prep_values xs) (S i - window) (S i)
            < Z.of_nat (S i - (S i - window))) by (apply Hcount; [lia | exact Hobs]).
    lia.
  - now rewrite rolling_mean_nth_out.
Qed.

Lemma rolling_mean_missing (window : nat) (xs : list float) (k i : nat) (c : float) :
  (2 <= window)%nat ->
  xs !! k = Some c -> F64.absent c ->
  (k <= i < k + window)%nat ->
  F64.absent (nth i (rolling_mean window xs) nan).
Proof.
  intros Hw Hk Hc. apply rolling_mean_unobserved; [exact Hw|].
  rewrite nth_prep_values, nth_lookup, Hk. simpl.
  apply F64Facts.absent_eq in Hc. subst c. reflexivity.
Qed.

(** The state of a row depends on the rows up to it only. *)
Lemma roll_state_app (xs ys : list float) (window i : nat) :
  (2 <= window)%nat -> (i < length xs)%nat ->
  roll_state (xs ++ ys) window i = roll_state xs window i.
Proof.
  intros Hw. induction i as [|i IH]; intros Hi.
  - rewrite !roll_state_first by lia. now rewrite app_nth1 by exact Hi.
  - rewrite !roll_state_next by exact Hw. rewrite IH by lia.
    rewrite (app_nth1 xs ys nan Hi).
    destruct (window <=? S i)%nat; [|reflexivity].
    now rewrite (app_nth1 xs ys nan) by lia.
Qed.

Lemma rolling_mean_app (window : nat) (xs ys : list float) (i : nat) :
  (2 <= window)%nat -> (i < length xs)%nat ->
  nth i (rolling_mean window (xs ++ ys)) nan = nth i (rolling_mean window xs) nan.
Proof.
  intros Hw Hi.
  rewrite !rolling_mean_nth by (rewrite ?length_app; lia).
  rewrite prep_values_app, roll_state_app; [reflexivity | exact Hw |].
  now rewrite length_prep_values.
Qed.

(** With values whose sign bit is clear, no negative value is counted and
    the mean is not negative. *)
Lemma clear_sign_nth (values : list float) (j : nat) :
  Forall clear_sign values -> clear_sign (nth j values nan).
Proof.
  intros H. destruct (Nat.lt_ge_cases j (length values)) as [Hlt|Hge].
  - apply (proj1 (List.Forall_forall _ _) H), nth_In, Hlt.
  - rewrite nth_overflow by exact Hge. split; [exact I | discriminate].
Qed.

Lemma clear_sign_add_mean (v : float) (st : MeanState) :
  clear_sign v -> neg_ct st = 0 /\ F64.not_negative (prev_value st) ->
  neg_ct (add_mean v st) = 0 /\ F64.not_negative (prev_value (add_mean v st)).
Proof.
  intros [Hnn Hsign] [Hneg Hprev]. unfold add_mean.
  fold (observed v). destruct (observed v) eqn:E; [|auto].
  simpl. rewrite (Hsign eq_refl). auto.
Qed.

Lemma clear_sign_remove_mean (v : float) (st : MeanState) :
  clear_sign v -> neg_ct st = 0 /\ F64.not_negative (prev_value st) ->
  neg_ct (remove_mean v st) = 0 /\ F64.not_negative (prev_value (remove_mean v st)).
Proof.
  intros [Hnn Hsign] [Hneg Hprev]. unfold remove_mean.
  fold (observed v). destruct (observed v) eqn:E; [|auto].
  simpl. rewrite (Hsign eq_refl). auto.
Qed.

Lemma clear_sign_roll_state (values : list float) (window i : nat) :
  (2 <= window)%nat -> Forall clear_sign values ->
  neg_ct (roll_state values window i) = 0
  /\ F64.not_negative (prev_value (roll_state values window i)).
Proof.
  intros Hw Hall. induction i as [|i IH].
  - rewrite roll_state_first by lia.
    apply clear_sign_add_mean; [now apply clear_sign_nth|].
    split; [reflexivity|]. apply (clear_sign_nth values 0 Hall).
  - rewrite roll_state_next by exact Hw.
    apply clear_sign_add_mean; [now apply clear_sign_nth|].
    destruct (window <=? S i)%nat; [|exact IH].
    apply clear_sign_remove_mean; [now apply clear_sign_nth | exact IH].
Qed.

Lemma calc_mean_not_negative (minp : Z) (st : MeanState) :
  neg_ct st = 0 -> F64.not_negative (prev_value st) ->
  F64.not_negative (calc_mean minp st).
Proof.
  intros Hneg Hprev. unfold calc_mean.
  destruct ((minp <=? nobs st) && (0 <? nobs st)); [|exact I].
  destruct (nobs st <=? num_consecutive_same_value st); [exact Hprev|].
  rewrite Hneg. simpl.
  destruct (sum_x st / float_of_Z (nobs st) <? 0)%float eqn:E; [exact I|].
  match goal with |- context [if ?c then _ else _] => destruct c end; [exact I|].
  now apply F64Sign.not_below_zero_not_negative.
Qed.

Lemma clear_sign_prep_values (xs : list float) :
  (forall c, In c xs -> (0 <? c)%float = true) ->
  Forall clear_sign (prep_values xs).
Proof.
  intros Hpos. apply List.Forall_forall. intros v Hv.
  apply in_map_iff in Hv as (c & <- & Hc). specialize (Hpos c Hc).
  destruct (is_infinity c).
  - split; [exact I | discriminate].
  - split; [now apply F64Facts.positive_not_negative|].
    intros _. now apply F64Sign.signbit_positive.
Qed.

Lemma rolling_mean_not_negative (window : nat) (xs : list float) (i : nat) :
  (2 <= window)%nat ->
  (forall c, In c xs -> (0 <? c)%float = true) ->
  F64.not_negative (nth i (rolling_mean window xs) nan).
Proof.
  intros Hw Hpos. destruct (Nat.lt_ge_cases i (length xs)) as [Hlt|Hge].
  - rewrite rolling_mean_nth by exact Hlt.
    destruct (clear_sign_roll_state (prep_values xs) window i Hw
                (clear_sign_prep_values xs Hpos)) as [Hneg Hprev].
    now apply calc_mean_not_negative.
  - rewrite rolling_mean_nth_out by exact Hge. exact I.
Qed.

(** The difference column. *)
Lemma length_diff_from (xs : list float) (prev : float) :
  length (diff_from prev xs) = length xs.
Proof.
  revert prev. induction xs as [|x rest IH]; intros prev; simpl; [reflexivity|].
  now rewrite IH.
Qed.

Lemma diff_from_nth (xs : list float) (prev : float) (i : nat) :
  (i < length xs)%nat ->
  nth i (diff_from prev xs) nan
  = (nth i xs nan - match i with O => prev | S j => nth j xs nan end)%float.
Proof.
  revert prev i. induction xs as [|x rest IH]; intros prev i Hi; simpl in Hi; [lia|].
  destruct i as [|i]; simpl; [reflexivity|].
  rewrite IH by lia. destruct i; reflexivity.
Qed.

Lemma diff_nth (xs : list float) (i : nat) :
  (i < length xs)%nat ->
  nth i (diff xs) nan
  = (nth i xs nan - match i with O => nan | S j => nth j xs nan end)%float.
Proof. apply diff_from_nth. Qed.

Lemma diff_nth_absent (xs : list float) (i : nat) :
  F64.absent (nth i xs nan)
  \/ i = O
  \/ (exists j, i = S j /\ F64.absent (nth j xs nan)) ->
  F64.absent (nth i (diff xs) nan).
Proof.
  intros H. destruct (Nat.lt_ge_cases i (length xs)) as [Hlt|Hge].
  - rewrite diff_nth by exact Hlt. destruct H as [H | [-> | (j & -> & H)]].
    + now apply F64Facts.sub_absent_l.
    + apply F64Facts.sub_absent_r, F64Facts.absent_nan.
    + now apply F64Facts.sub_absent_r.
  - rewrite nth_overflow; [reflexivity|]. unfold diff. now rewrite length_diff_from.
Qed.

Lemma diff_rolling_mean_app (xs ys : list float) (i : nat) :
  (i < length xs)%nat ->
  nth i (diff (rolling_mean 20 (xs ++ ys))) nan = nth i (diff (rolling_mean 20 xs)) nan.
Proof.
  intros Hi.
  rewrite !diff_nth by (rewrite length_rolling_mean, ?length_app; lia).
  rewrite rolling_mean_app by (lia || exact Hi).
  destruct i as [|j]; [reflexivity|].
  now rewrite (rolling_mean_app 20 xs ys j) by lia.
Qed.

(** The rows of the frame with its indicators. *)
Lemma add_indicators_lookup (df : list PriceBar) (i : nat) :
  add_indicators df !! i = indicator_bar_at df i <$> df !! i.
Proof. unfold add_indicators. now rewrite list_lookup_imap. Qed.

Lemma length_add_indicators (df : list PriceBar) :
  length (add_indicators df) = length df.
Proof. unfold add_indicators. apply length_imap. Qed.

Lemma add_indicators_In (df : list PriceBar) (row : IndicatorBar) :
  In row (add_indicators df) ->
  exists i b, df !! i = Some b /\ row = indicator_bar_at df i b.
Proof.
  rewrite <- list_elem_of_In, list_elem_of_lookup. intros [i Hi].
  rewrite add_indicators_lookup in Hi.
  destruct (df !! i) as [b|] eqn:E; [|discriminate Hi].
  exists i, b. split; [exact E|]. simpl in Hi. congruence.
Qed.

Lemma add_indicators_dates (df : list PriceBar) :
  map Date (add_indicators df) = map pb_date df.
Proof.
  apply list_eq. intros i. rewrite !list_lookup_fmap, add_indicators_lookup.
  destruct (df !! i); reflexivity.
Qed.

Lemma add_indicators_closes (df : list PriceBar) :
  map Close (add_indicators df) = map pb_close df.
Proof.
  apply list_eq. intros i. rewrite !list_lookup_fmap, add_indicators_lookup.
  destruct (df !! i); reflexivity.
Qed.

(** ** Alignment and absent indicators *)

Lemma align_status_bullish (row : IndicatorBar) :
  align_status row = alignment_label Bullish
  <-> (MA10 row <? MA5 row)%float = true
      /\ (MA20 row <? MA10 row)%float = true
      /\ (MA60 row <? MA20 row)%float = true.
Proof.
  unfold align_status, F64.gtb. simpl.
  destruct (MA10 row <? MA5 row)%float, (MA20 row <? MA10 row)%float,
    (MA60 row <? MA20 row)%float; simpl; split;
    try tauto; try discriminate; intros (H1 & H2 & H3); discriminate.
Qed.

Lemma align_status_none (row : IndicatorBar) :
  align_status row = alignment_label NoAlignment
  <-> align_status row <> alignment_label Bullish.
Proof.
  destruct (align_status_cases row) as [[|] H]; rewrite H; simpl; split;
    try tauto; discriminate.
Qed.

Lemma align_status_absent_MA60 (row : IndicatorBar) :
  F64.absent (MA60 row) -> align_status row = alignment_label NoAlignment.
Proof.
  intros H. apply align_status_none. rewrite align_status_bullish.
  intros (_ & _ & H3). rewrite F64Facts.ltb_absent_l in H3 by exact H. discriminate.
Qed.

Lemma align_status_absent_MA20 (row : IndicatorBar) :
  F64.absent (MA20 row) -> align_status row = alignment_label NoAlignment.
Proof.
  intros H. apply align_status_none. rewrite align_status_bullish.
  intros (_ & _ & H3). rewrite F64Facts.ltb_absent_r in H3 by exact H. discriminate.
Qed.

Lemma slope_status_absent (row : IndicatorBar) :
  F64.absent (MA20 row) \/ F64.absent (MA20_Slope_Val row) ->
  slope_status row = slope_label Flat.
Proof.
  intros H. apply slope_status_flat. destruct H as [H|H].
  - split.
    + apply F64Facts.ltb_absent_l, F64Facts.mul_absent_l, H.
    + apply F64Facts.ltb_absent_r, F64Facts.opp_absent, F64Facts.mul_absent_l, H.
  - split; [now apply F64Facts.ltb_absent_r | now apply F64Facts.ltb_absent_l].
Qed.

Lemma pos_status_absent (row : IndicatorBar) :
  F64.absent (MA20 row) \/ F64.absent (Close row) ->
  pos_status row = position_label Below.
Proof.
  intros H. unfold pos_status, F64.gtb. destruct H as [H|H].
  - now rewrite F64Facts.ltb_absent_l.
  - now rewrite F64Facts.ltb_absent_r.
Qed.

(** C5: the alignment is Bullish exactly when MA5 > MA10, MA10 > MA20 and
    MA20 > MA60, all strict, which requires the four means to be present; two
    equal neighbours give None; an absent MA60 gives None; and in a frame of
    fewer than 60 rows MA60 is absent on every row, so every row is None. *)
Theorem alignment_strict_and_present (row : IndicatorBar) :
  (align_status row = alignment_label Bullish
   <-> (MA10 row <? MA5 row)%float = true
       /\ (MA20 row <? MA10 row)%float = true
       /\ (MA60 row <? MA20 row)%float = true)
  /\ (align_status row <> alignment_label Bullish
      -> align_status row = alignment_label NoAlignment)
  /\ (align_status row = alignment_label Bullish
      -> F64.present (MA5 row) /\ F64.present (MA10 row)
         /\ F64.present (MA20 row) /\ F64.present (MA60 row))
  /\ ((MA5 row =? MA10 row)%float = true \/ (MA10 row =? MA20 row)%float = true
      \/ (MA20 row =? MA60 row)%float = true
      -> align_status row = alignment_label NoAlignment)
  /\ (F64.absent (MA60 row) -> align_status row = alignment_label NoAlignment)
  /\ (forall df : list PriceBar,
        (length df < 60)%nat -> In row (add_indicators df) ->
        F64.absent (MA60 row) /\ align_status row = alignment_label NoAlignment).
Proof.
  split; [apply align_status_bullish|].
  split; [apply align_status_none|].
  split.
  { rewrite align_status_bullish. intros (H1 & H2 & H3).
    destruct (F64Facts.ltb_true_present _ _ H1) as [P10 P5].
    destruct (F64Facts.ltb_true_present _ _ H3) as [P60 P20]. auto. }
  split.
  { intros H. apply align_status_none. rewrite align_status_bullish.
    intros (H1 & H2 & H3). destruct H as [H|[H|H]].
    - rewrite (F64Facts.eqb_not_ltb _ _ H) in H1. discriminate.
    - rewrite (F64Facts.eqb_not_ltb _ _ H) in H2. discriminate.
    - rewrite (F64Facts.eqb_not_ltb _ _ H) in H3. discriminate. }
  split; [apply align_status_absent_MA60|].
  intros df Hlen Hin.
  assert (Habs : F64.absent (MA60 row)).
  { destruct (add_indicators_In df row Hin) as (i & b & Hb & ->).
    unfold indicator_bar_at. cbn [MA60].
    apply rolling_mean_short; [lia|]. apply lookup_lt_Some in Hb. lia. }
  split; [exact Habs | now apply align_status_absent_MA60].
Qed.

(** C10: no comparison of the classification can fail, and a comparison
    with an absent value is false.  So an absent slope or an absent MA20
    gives Flat, an absent MA20 gives Below, an absent MA20 or MA60 gives
    None, and the row gets a regular record: its id is between 1 and 12,
    never the default 0, and it is 8 when MA20 is absent, hence when MA20,
    the slope and MA60 are all absent. *)
Theorem absent_indicators_default (row : IndicatorBar) :
  (F64.absent (MA20 row) \/ F64.absent (MA20_Slope_Val row)
   -> slope_status row = slope_label Flat)
  /\ (F64.absent (MA20 row) -> pos_status row = position_label Below)
  /\ (F64.absent (MA20 row) \/ F64.absent (MA60 row)
      -> align_status row = alignment_label NoAlignment)
  /\ (F64.absent (MA20 row) /\ F64.absent (MA20_Slope_Val row) /\ F64.absent (MA60 row)
      -> scenario_of row = lookup Flat Below NoAlignment /\ sid (scenario_of row) = 8)
  /\ (F64.absent (MA20 row) -> sid (scenario_of row) = 8)
  /\ 1 <= sid (scenario_of row) <= 12
  /\ scenario_of row <> unknown_scenario
  /\ (forall x y : float, F64.absent x ->
        (x <? y)%float = false /\ (y <? x)%float = false).
Proof.
  assert (H8 : F64.absent (MA20 row) -> scenario_of row = lookup Flat Below NoAlignment).
  { intros H. unfold scenario_of, lookup.
    rewrite slope_status_absent, pos_status_absent, align_status_absent_MA20; auto. }
  split; [apply slope_status_absent|].
  split; [intros H; apply pos_status_absent; auto|].
  split.
  { intros [H|H]; [now apply align_status_absent_MA20 | now apply align_status_absent_MA60]. }
  split.
  { intros (H & _ & _). rewrite (H8 H). split; [reflexivity | vm_compute; reflexivity]. }
  split.
  { intros H. rewrite (H8 H). vm_compute. reflexivity. }
  split; [apply scenario_of_sid_range|].
  split.
  { intros H. pose proof (scenario_of_sid_range row) as Hr. rewrite H in Hr.
    vm_compute in Hr. destruct Hr as [Hr _]. now apply Hr. }
  intros x y H. split; [now apply F64Facts.ltb_absent_l | now apply F64Facts.ltb_absent_r].
Qed.

(** C2 (amended): a row classified without its lead-in history does not make
    the classification fail.  The absent MA20 propagates as an absent
    threshold, every comparison with an absent value is false, and the row
    is labelled silently: Flat when MA20 or the slope is absent, and also
    Below and None when MA20 is absent; its result row is emitted with the
    labels and a regular scenario. *)
Theorem absent_lead_in_is_labelled (row : IndicatorBar) :
  F64.absent (MA20 row) \/ F64.absent (MA20_Slope_Val row) ->
  (F64.absent (MA20 row)
   -> F64.absent (slope_threshold row) /\ F64.absent (- slope_threshold row)%float)
  /\ r_slope (analyze_row row) = slope_label Flat
  /\ (F64.absent (MA20 row)
      -> r_pos (analyze_row row) = position_label Below
         /\ r_align (analyze_row row) = alignment_label NoAlignment)
  /\ 1 <= r_sid (analyze_row row) <= 12.
Proof.
  intros H. split; [|split; [|split]].
  - intros H20. split.
    + apply F64Facts.mul_absent_l, H20.
    + apply F64Facts.opp_absent, F64Facts.mul_absent_l, H20.
  - simpl. now apply slope_status_absent.
  - intros H20. simpl. split.
    + apply pos_status_absent. now left.
    + now apply align_status_absent_MA20.
  - exact (scenario_of_sid_range row).
Qed.

(** ** The window policy of [main] and the rows of [analyze_stock] *)

(** C7: once the button is pressed, the request is rejected exactly when the
    end date is before the start date or the two dates are more than 10 days
    apart; a rejected request never reaches [analyze_stock], whatever the
    provider would answer, and any other request is analysed.  The window
    from 2024-01-01 to 2024-01-20 (19 days) is rejected as too long and the
    window from 2024-01-10 to 2024-01-05 as ending before it starts. *)
Theorem window_policy (yf_download : string -> Z -> Z -> list PriceBar)
    (ticker : string) (start_input end_input : Z) :
  let out := main yf_download ticker start_input end_input true in
  (is_validation_error out = true
   <-> end_input < start_input \/ end_input - start_input > 10)
  /\ (end_input - start_input > 10
      -> out = RangeTooLongError (end_input - start_input))
  /\ (end_input < start_input -> out = EndBeforeStartError)
  /\ (start_input <= end_input /\ end_input - start_input <= 10
      -> out = Analyzed (analyze_stock yf_download ticker start_input end_input))
  /\ (is_validation_error out = true
      -> forall other, main other ticker start_input end_input true = out)
  /\ main yf_download ticker (ymd2ord 2024 1 1) (ymd2ord 2024 1 20) true
     = RangeTooLongError 19
  /\ main yf_download ticker (ymd2ord 2024 1 10) (ymd2ord 2024 1 5) true
     = EndBeforeStartError.
Proof.
  cbv zeta.
  assert (Hmain : forall dl,
            main dl ticker start_input end_input true
            = if 10 <? end_input - start_input
              then RangeTooLongError (end_input - start_input)
              else if end_input - start_input <? 0 then EndBeforeStartError
                   else Analyzed (analyze_stock dl ticker start_input end_input)).
  { intros dl. unfold main. now rewrite Z.gtb_ltb. }
  rewrite Hmain.
  split; [|split; [|split; [|split; [|split; [|split; reflexivity]]]]].
  - destruct (Z.ltb_spec 10 (end_input - start_input));
      destruct (Z.ltb_spec (end_input - start_input) 0); simpl;
      split; intros; try lia; try reflexivity; discriminate.
  - intros H. destruct (Z.ltb_spec 10 (end_input - start_input)); [reflexivity | lia].
  - intros H.
    destruct (Z.ltb_spec 10 (end_input - start_input)); [lia|].
    destruct (Z.ltb_spec (end_input - start_input) 0); [reflexivity | lia].
  - intros [H1 H2].
    destruct (Z.ltb_spec 10 (end_input - start_input)); [lia|].
    destruct (Z.ltb_spec (end_input - start_input) 0); [lia | reflexivity].
  - intros H other. rewrite Hmain.
    destruct (10 <? end_input - start_input); [reflexivity|].
    destruct (end_input - start_input <? 0); [reflexivity | discriminate H].
Qed.

Lemma map_filter_In {A B : Type} (g : A -> B) (f : A -> bool) (l : list A) (y : B) :
  In y (map g (List.filter f l)) -> In y (map g l).
Proof.
  rewrite !in_map_iff. intros (x & Hy & Hx). apply filter_In in Hx as [Hx _]. eauto.
Qed.

Lemma StronglySorted_map_filter {A B : Type} (R : B -> B -> Prop) (g : A -> B)
    (f : A -> bool) (l : list A) :
  StronglySorted R (map g l) -> StronglySorted R (map g (List.filter f l)).
Proof.
  induction l as [|x l IH]; simpl; intros H; [exact H|].
  apply StronglySorted_inv in H as [Hl Hx].
  destruct (f x); simpl; [|now apply IH].
  constructor; [now apply IH|].
  apply List.Forall_forall. intros y Hy.
  apply (proj1 (List.Forall_forall _ _) Hx). eapply map_filter_In, Hy.
Qed.

Section AnalyzeStock.

Variable yf_download : string -> Z -> Z -> list PriceBar.
Variables (ticker : string) (start_date end_date : Z).

Local Abbreviation downloaded := (downloaded yf_download ticker start_date end_date).
Local Abbreviation target_rows := (target_rows yf_download ticker start_date end_date).

Lemma analyze_stock_results :
  results_of (analyze_stock yf_download ticker start_date end_date)
  = map analyze_row target_rows.
Proof.
  unfold analyze_stock, target_rows, downloaded.
  destruct (yf_download ticker (start_date - 120) (end_date + 1)) as [|b df];
    [reflexivity|].
  destruct (List.filter _ _); reflexivity.
Qed.

Lemma target_rows_In (row : IndicatorBar) :
  In row target_rows
  <-> In row (add_indicators downloaded)
      /\ start_date <= Date row <= end_date.
Proof.
  unfold target_rows. rewrite filter_In. unfold in_range.
  rewrite andb_true_iff, !Z.leb_le. tauto.
Qed.

Lemma filter_sublist {A : Type} (f : A -> bool) (l : list A) :
  sublist (List.filter f l) l.
Proof.
  induction l as [|x l IH]; simpl; [constructor|].
  destruct (f x); now constructor.
Qed.

(** C8 (amended): for a downloaded frame that is not empty, the indicators
    are computed over the whole frame; the rows kept are exactly those whose
    date lies in [start, end], both ends included; the results are one row
    per kept row, each the classification of its row, in the order of the
    kept rows, which is chronological when the frame is in date order.  When
    no row is kept, the outcome is the warning, with no result row.  When
    the frame itself is empty, the outcome is the error message of the empty
    download, with no result row either. *)
Theorem analyze_stock_rows :
  let out := analyze_stock yf_download ticker start_date end_date in
  results_of out = map analyze_row target_rows
  /\ (forall row, In row target_rows
                  <-> In row (add_indicators downloaded)
                      /\ start_date <= Date row <= end_date)
  /\ sublist target_rows (add_indicators downloaded)
  /\ length (results_of out) = length target_rows
  /\ map r_date (results_of out) = map Date target_rows
  /\ (StronglySorted Z.lt (map pb_date downloaded) ->
      StronglySorted Z.lt (map Date target_rows)
      /\ StronglySorted Z.lt (map r_date (results_of out)))
  /\ (target_rows <> [] ->
      out = Shown (map analyze_row target_rows)
                  (map (fun row => (Close row, MA20 row, MA60 row)) target_rows))
  /\ (downloaded <> [] -> target_rows = [] ->
      out = NoTradingWarning /\ results_of out = [])
  /\ (downloaded = [] -> out = NoDataError ticker /\ results_of out = []).
Proof.
  cbv zeta.
  assert (Hdates : map r_date (results_of
                     (analyze_stock yf_download ticker start_date end_date))
                   = map Date target_rows).
  { rewrite analyze_stock_results, map_map. reflexivity. }
  split; [apply analyze_stock_results|].
  split; [apply target_rows_In|].
  split; [apply filter_sublist|].
  split; [rewrite analyze_stock_results; apply length_map|].
  split; [exact Hdates|].
  split.
  { intros Hsorted.
    assert (Hkept : StronglySorted Z.lt (map Date target_rows)).
    { unfold target_rows. apply StronglySorted_map_filter.
      now rewrite add_indicators_dates. }
    split; [exact Hkept | now rewrite Hdates]. }
  unfold analyze_stock, target_rows, downloaded.
  destruct (yf_download ticker (start_date - 120) (end_date + 1)) as [|b df].
  - split; [intros H; now contradiction H|].
    split; [intros H; now contradiction H|]. intros _. split; reflexivity.
  - destruct (List.filter _ _) as [|r rs].
    + split; [intros H; now contradiction H|].
      split; [intros _ _; split; reflexivity | discriminate].
    + split; [reflexivity|]. split; discriminate.
Qed.

End AnalyzeStock.

(** ** Positive closes keep the 20-row mean from being negative *)

Lemma positive_closes_MA20_not_negative (df : list PriceBar) (row : IndicatorBar) :
  (forall b, In b df -> (0 <? pb_close b)%float = true) ->
  In row (add_indicators df) ->
  F64.not_negative (MA20 row).
Proof.
  intros Hpos Hin.
  destruct (add_indicators_In df row Hin) as (i & b & Hb & ->).
  unfold indicator_bar_at. cbn [MA20].
  apply rolling_mean_not_negative; [lia|].
  intros c Hc. apply in_map_iff in Hc as (b' & <- & Hb'). now apply Hpos.
Qed.

Lemma positive_closes_MA20 (df : list PriceBar) (row : IndicatorBar) :
  (forall b, In b df -> (0 <? pb_close b)%float = true) ->
  In row (add_indicators df) ->
  F64.absent (MA20 row) \/ (0 <=? MA20 row)%float = true.
Proof.
  intros Hpos Hin.
  now apply F64Facts.not_negative_cases, (positive_closes_MA20_not_negative df).
Qed.

(** C3: the threshold is MA20 * 0.0005 and the comparisons are strict.  Up
    holds exactly when the slope is above the threshold, Flat exactly when
    neither test succeeds, and Down exactly when the first test fails and the
    slope is below the opposite of the threshold; for a 20-row mean that is
    not negative, which the positive closes of the data model give, the
    first test cannot succeed together with the second, so Down holds exactly
    when the slope is below the opposite of the threshold; this is the case
    of every row of a frame whose closes are positive.  With MA20 = 100, a
    slope of 0.05 is Flat, 0.0501 is Up and -0.0501 is Down. *)
Theorem slope_direction_thresholds (row : IndicatorBar) :
  let threshold := (MA20 row * 0.0005)%float in
  let slope := MA20_Slope_Val row in
  slope_threshold row = threshold
  /\ (slope_status row = slope_label Up <-> (threshold <? slope)%float = true)
  /\ (slope_status row = slope_label Down
      <-> (threshold <? slope)%float = false /\ (slope <? - threshold)%float = true)
  /\ (slope_status row = slope_label Flat
      <-> (threshold <? slope)%float = false /\ (slope <? - threshold)%float = false)
  /\ ((0 <=? MA20 row)%float = true ->
      (slope_status row = slope_label Down <-> (slope <? - threshold)%float = true))
  /\ (forall df : list PriceBar,
        (forall b, In b df -> (0 <? pb_close b)%float = true) ->
        In row (add_indicators df) ->
        (slope_status row = slope_label Down <-> (slope <? - threshold)%float = true))
  /\ (MA20 row = 100%float ->
      (slope = 0.05%float -> slope_status row = slope_label Flat)
      /\ (slope = 0.0501%float -> slope_status row = slope_label Up)
      /\ (slope = (-0.0501)%float -> slope_status row = slope_label Down)).
Proof.
  cbv zeta. split; [reflexivity|].
  split; [apply slope_status_up|].
  split; [apply slope_status_down|].
  split; [apply slope_status_flat|].
  assert (Hdown : (0 <=? MA20 row)%float = true ->
                  (slope_status row = slope_label Down
                   <-> (MA20_Slope_Val row <? - (MA20 row * 0.0005))%float = true)).
  { intros Hpos. rewrite slope_status_down. fold (slope_threshold row).
    split; [tauto|]. intros Hlt. split; [|exact Hlt].
    destruct (slope_threshold row <? MA20_Slope_Val row)%float eqn:Hgt; [|reflexivity].
    unfold slope_threshold in *.
    rewrite (F64Facts.above_threshold_not_below (MA20 row) 0.0005 _ Hpos eq_refl Hgt) in Hlt.
    discriminate Hlt. }
  split; [exact Hdown|].
  split.
  - intros df Hpos Hin.
    destruct (positive_closes_MA20 df row Hpos Hin) as [Habs|Hge]; [|now apply Hdown].
    rewrite slope_status_absent by now left.
    rewrite F64Facts.ltb_absent_r by apply F64Facts.opp_absent, F64Facts.mul_absent_l, Habs.
    split; discriminate.
  - intros H100. unfold slope_status, slope_threshold, F64.gtb. rewrite H100.
    repeat split; intros ->; reflexivity.
Qed.

Lemma constant_closes (df : list PriceBar) (n : nat) (c : float) :
  map pb_close df = replicate n c ->
  length df = n /\ forall b, In b df -> pb_close b = c.
Proof.
  intros H. split.
  - rewrite <- (length_map pb_close), H. apply length_replicate.
  - intros b Hb. apply (in_map pb_close) in Hb. rewrite H in Hb.
    apply list_elem_of_In, elem_of_replicate in Hb. tauto.
Qed.

(** C9: in a frame of 65 rows that all close at 100, the last row has its
    four means equal to 100 and a slope of 0; the slope is within the
    threshold (Flat), the close equals the 20-row mean (Below) and the means
    are equal (None), so the lookup gives scenario 8. *)
Theorem flat_series_is_scenario_8 (df : list PriceBar) :
  map pb_close df = replicate 65 100%float ->
  exists row,
    last (add_indicators df) = Some row
    /\ Close row = 100%float
    /\ MA5 row = 100%float /\ MA10 row = 100%float
    /\ MA20 row = 100%float /\ MA60 row = 100%float
    /\ MA20_Slope_Val row = 0%float
    /\ slope_status row = slope_label Flat
    /\ pos_status row = position_label Below
    /\ align_status row = alignment_label NoAlignment
    /\ scenario_of row = lookup Flat Below NoAlignment
    /\ sid (scenario_of row) = 8
    /\ r_sid (analyze_row row) = 8.
Proof.
  intros Hc. destruct (constant_closes df 65 _ Hc) as [Hlen Hall].
  destruct (lookup_lt_is_Some_2 df 64) as [b Hb]; [lia|].
  assert (Hclose : pb_close b = 100%float).
  { apply Hall, list_elem_of_In, list_elem_of_lookup. now exists 64%nat. }
  exists (indicator_bar_at df 64 b).
  split.
  { rewrite last_lookup, length_add_indicators, Hlen. simpl.
    now rewrite add_indicators_lookup, Hb. }
  unfold scenario_of, slope_status, pos_status, align_status, slope_threshold,
    analyze_row, scenario_of, slope_status, pos_status, align_status,
    slope_threshold, indicator_bar_at, F64.gtb.
  cbn [Close MA5 MA10 MA20 MA60 MA20_Slope_Val r_sid].
  rewrite Hc, Hclose.
  repeat apply conj; vm_compute; reflexivity.
Qed.

(** C2, as stated, fails: the single row of a one-row download has no
    lead-in history, so all its means and its slope are absent; yet
    [analyze_stock] shows a result row for it, labelled Flat, Below and None
    and given scenario 8, with no failure anywhere. *)
Lemma lone_bar_is_labelled_silently :
  add_indicators lone_bar
  = [ {| Date := ymd2ord 2024 1 2; Close := 100;
         MA5 := nan; MA10 := nan; MA20 := nan; MA60 := nan;
         MA20_Slope_Val := nan |} ]
  /\ analyze_stock (provider_of lone_bar) "2330.TW" (ymd2ord 2024 1 2) (ymd2ord 2024 1 2)
     = Shown [ {| r_date := ymd2ord 2024 1 2;
                  r_close := 100;
                  r_tag := "🔴 盤整偏空";
                  r_sid := 8;
                  r_desc := "弱勢整理 (區間下緣)";
                  r_conclusion := "【偏空看待】無支撐力，容易演變成續跌。";
                  r_slope := slope_label Flat;
                  r_pos := position_label Below;
                  r_align := alignment_label NoAlignment |} ]
             [ (100%float, nan, nan) ].
Proof. split; vm_compute; reflexivity. Qed.

(** C8, as stated, fails on an empty download: no row lies in the window,
    and the outcome is the error message of the empty download, not the
    warning. *)
Lemma empty_download_is_an_error :
  let out := analyze_stock (provider_of []) "2330.TW" (ymd2ord 2024 1 2) (ymd2ord 2024 1 5) in
  target_rows (provider_of []) "2330.TW" (ymd2ord 2024 1 2) (ymd2ord 2024 1 5) = []
  /\ out = NoDataError "2330.TW"
  /\ out <> NoTradingWarning.
Proof. cbv zeta. split; [reflexivity|]. split; [reflexivity | discriminate]. Qed.

(** ** The theorems at concrete inputs *)

Lemma lookup_returns_dictionary_entry_witness :
  sid (lookup Flat Below NoAlignment) = sid (lookup Flat Below NoAlignment)
  /\ (Flat, Below, NoAlignment) = (Flat, Below, NoAlignment)
  /\ sid (lookup Flat Below NoAlignment) = spec_id Flat Below NoAlignment.
Proof.
  pose proof (lookup_returns_dictionary_entry Flat Below NoAlignment) as H.
  cbv zeta in H. destruct H as (_ & Hid & _ & _ & _ & Hinj).
  split; [reflexivity|]. split; [apply Hinj; reflexivity | exact Hid].
Defined.

Lemma slope_direction_thresholds_witness :
  (0 <=? MA20 falling_row)%float = true
  /\ slope_status falling_row = slope_label Down.
Proof.
  pose proof (slope_direction_thresholds falling_row) as H.
  cbv zeta in H. destruct H as (_ & _ & _ & _ & Hdown & _ & _).
  split; [reflexivity|]. apply Hdown; reflexivity.
Defined.

Lemma price_position_strict_witness :
  (Close level_row =? MA20 level_row)%float = true
  /\ pos_status level_row = position_label Below.
Proof.
  destruct (price_position_strict level_row) as (_ & _ & Heq).
  split; [reflexivity|]. apply Heq; reflexivity.
Defined.

Lemma alignment_strict_and_present_witness :
  ((MA5 level_row =? MA10 level_row)%float = true
   \/ (MA10 level_row =? MA20 level_row)%float = true
   \/ (MA20 level_row =? MA60 level_row)%float = true)
  /\ align_status level_row = alignment_label NoAlignment.
Proof.
  destruct (alignment_strict_and_present level_row) as (_ & _ & _ & Heq & _ & _).
  split; [left; reflexivity|]. apply Heq. left. reflexivity.
Defined.

Lemma window_policy_witness :
  (ymd2ord 2024 1 2 <= ymd2ord 2024 1 5 /\ ymd2ord 2024 1 5 - ymd2ord 2024 1 2 <= 10)
  /\ main (provider_of lone_bar) "2330.TW" (ymd2ord 2024 1 2) (ymd2ord 2024 1 5) true
     = Analyzed (analyze_stock (provider_of lone_bar) "2330.TW"
                   (ymd2ord 2024 1 2) (ymd2ord 2024 1 5)).
Proof.
  pose proof (window_policy (provider_of lone_bar) "2330.TW"
                (ymd2ord 2024 1 2) (ymd2ord 2024 1 5)) as H.
  cbv zeta in H. destruct H as (_ & _ & _ & Hok & _).
  assert (Hin : ymd2ord 2024 1 2 <= ymd2ord 2024 1 5
                /\ ymd2ord 2024 1 5 - ymd2ord 2024 1 2 <= 10).
  { split; vm_compute; discriminate. }
  split; [exact Hin | exact (Hok Hin)].
Defined.

Lemma analyze_stock_rows_witness :
  ((downloaded (provider_of lone_bar) "2330.TW" (ymd2ord 2024 1 6) (ymd2ord 2024 1 7) <> []
    /\ target_rows (provider_of lone_bar) "2330.TW" (ymd2ord 2024 1 6) (ymd2ord 2024 1 7) = [])
   /\ analyze_stock (provider_of lone_bar) "2330.TW" (ymd2ord 2024 1 6) (ymd2ord 2024 1 7)
      = NoTradingWarning)
  /\ (StronglySorted Z.lt
        (map pb_date (downloaded (provider_of gapped_series) "2330.TW"
                        (ymd2ord 2024 1 3) (ymd2ord 2024 1 4)))
      /\ StronglySorted Z.lt
           (map r_date (results_of (analyze_stock (provider_of gapped_series) "2330.TW"
                                      (ymd2ord 2024 1 3) (ymd2ord 2024 1 4))))).
Proof.
  split.
  - pose proof (analyze_stock_rows (provider_of lone_bar) "2330.TW"
                  (ymd2ord 2024 1 6) (ymd2ord 2024 1 7)) as H.
    cbv zeta in H. destruct H as (_ & _ & _ & _ & _ & _ & _ & Hwarn & _).
    assert (Hne : downloaded (provider_of lone_bar) "2330.TW"
                    (ymd2ord 2024 1 6) (ymd2ord 2024 1 7) <> []) by discriminate.
    assert (Hnil : target_rows (provider_of lone_bar) "2330.TW"
                     (ymd2ord 2024 1 6) (ymd2ord 2024 1 7) = []) by reflexivity.
    split; [split; assumption|]. exact (proj1 (Hwarn Hne Hnil)).
  - pose proof (analyze_stock_rows (provider_of gapped_series) "2330.TW"
                  (ymd2ord 2024 1 3) (ymd2ord 2024 1 4)) as H.
    cbv zeta in H. destruct H as (_ & _ & _ & _ & _ & Hsorted & _).
    assert (Hs : StronglySorted Z.lt
                   (map pb_date (downloaded (provider_of gapped_series) "2330.TW"
                                   (ymd2ord 2024 1 3) (ymd2ord 2024 1 4)))).
    { vm_compute. repeat constructor. }
    split; [exact Hs | exact (proj2 (Hsorted Hs))].
Defined.

Lemma flat_series_is_scenario_8_witness :
  map pb_close flat_series = replicate 65 100%float
  /\ exists row,
       last (add_indicators flat_series) = Some row
       /\ sid (scenario_of row) = 8.
Proof.
  split; [reflexivity|].
  destruct (flat_series_is_scenario_8 flat_series eq_refl)
    as (row & Hlast & _ & _ & _ & _ & _ & _ & _ & _ & _ & _ & H8 & _).
  exists row. split; assumption.
Defined.

Lemma absent_indicators_default_witness :
  F64.absent (MA20 fresh_row) /\ sid (scenario_of fresh_row) = 8.
Proof.
  destruct (absent_indicators_default fresh_row) as (_ & _ & _ & _ & H8 & _).
  split; [reflexivity|]. apply H8. reflexivity.
Defined.

Lemma absent_lead_in_is_labelled_witness :
  (F64.absent (MA20 fresh_row) \/ F64.absent (MA20_Slope_Val fresh_row))
  /\ r_slope (analyze_row fresh_row) = slope_label Flat.
Proof.
  assert (H : F64.absent (MA20 fresh_row) \/ F64.absent (MA20_Slope_Val fresh_row)).
  { left. reflexivity. }
  split; [exact H|].
  exact (proj1 (proj2 (absent_lead_in_is_labelled fresh_row H))).
Defined.

(** * Part III: further properties of the program

    ** Keys of the dictionary *)

Lemma scenario_key_labels (slope position alignment : string) :
  In (slope, position, alignment) (scenario_items.*1)
  <-> exists s p a,
        slope = slope_label s /\ position = position_label p
        /\ alignment = alignment_label a.
Proof.
  split.
  - intros H. vm_compute in H.
    repeat (destruct H as [H|H];
            [injection H as <- <- <-;
             first [ now exists Up, Above, Bullish | now exists Up, Above, NoAlignment
                   | now exists Up, Below, Bullish | now exists Up, Below, NoAlignment
                   | now exists Flat, Above, Bullish | now exists Flat, Above, NoAlignment
                   | now exists Flat, Below, Bullish | now exists Flat, Below, NoAlignment
                   | now exists Down, Above, Bullish | now exists Down, Above, NoAlignment
                   | now exists Down, Below, Bullish | now exists Down, Below, NoAlignment ]|]).
    contradiction.
  - intros (s & p & a & -> & -> & ->). destruct s, p, a; vm_compute; tauto.
Qed.

Lemma get_scenario_analysis_labels (s : SlopeDirection) (p : PricePosition) (a : Alignment) :
  get_scenario_analysis (slope_label s) (position_label p) (alignment_label a)
  = lookup s p a.
Proof. reflexivity. Qed.

(** X1: [get_scenario_analysis] answers with its default record, scenario 0,
    exactly for the keys that are missing from the dictionary, that is when
    one of the three labels is not a label the classifier produces; for the
    labels of the classifier it answers with an id between 1 and 12. *)
Theorem get_scenario_analysis_default (slope position alignment : string) :
  let r := get_scenario_analysis slope position alignment in
  let known := exists s p a,
      slope = slope_label s /\ position = position_label p
      /\ alignment = alignment_label a in
  (r = unknown_scenario <-> ~ known)
  /\ (sid r = 0 <-> ~ known)
  /\ (known <-> 1 <= sid r <= 12)
  /\ (known <-> scenarios !! (slope, position, alignment) = Some r).
Proof.
  cbv zeta.
  destruct (decide (In (slope, position, alignment) (scenario_items.*1))) as [Hin|Hout].
  - pose proof (proj1 (scenario_key_labels _ _ _) Hin) as Hk.
    destruct Hk as (s & p & a & -> & -> & ->).
    rewrite get_scenario_analysis_labels.
    pose proof (lookup_sid_range s p a) as Hr.
    assert (Hk : exists s0 p0 a0,
               slope_label s = slope_label s0 /\ position_label p = position_label p0
               /\ alignment_label a = alignment_label a0) by (now exists s, p, a).
    split; [|split; [|split]].
    + split; [|tauto]. intros H. rewrite H in Hr. vm_compute in Hr.
      destruct Hr as [Hr _]. now contradiction Hr.
    + split; [lia | tauto].
    + tauto.
    + split; [|tauto]. intros _.
      destruct s, p, a; vm_compute; reflexivity.
  - pose proof (get_scenario_analysis_unknown _ _ _ Hout) as Hr.
    assert (Hk : ~ exists s p a,
               slope = slope_label s /\ position = position_label p
               /\ alignment = alignment_label a).
    { intros H. now apply Hout, scenario_key_labels. }
    rewrite Hr. split; [|split; [|split]].
    + tauto.
    + split; [tauto | reflexivity].
    + split; [tauto|]. vm_compute. intros [H _]. now contradiction H.
    + split; [tauto|]. intros H. exfalso. apply Hout.
      apply list_elem_of_In, list_elem_of_fmap. exists (slope, position, alignment, unknown_scenario).
      split; [reflexivity|]. apply list_elem_of_In, scenarios_lookup_item, H.
Qed.

(** ** Result rows *)

Lemma lookup_scenario_number (s : SlopeDirection) (p : PricePosition) (a : Alignment) :
  sid (lookup s p a) = scenario_number s p a.
Proof. destruct s, p, a; vm_compute; reflexivity. Qed.

Lemma scenario_number_inj (s s' : SlopeDirection) (p p' : PricePosition)
    (a a' : Alignment) :
  scenario_number s p a = scenario_number s' p' a' -> s = s' /\ p = p' /\ a = a'.
Proof.
  unfold scenario_number.
  destruct s, p, a, s', p', a'; simpl; intros H; try lia; auto.
Qed.

Lemma analyze_row_lookup (row : IndicatorBar) :
  exists s p a,
    r_slope (analyze_row row) = slope_label s
    /\ r_pos (analyze_row row) = position_label p
    /\ r_align (analyze_row row) = alignment_label a
    /\ r_sid (analyze_row row) = sid (lookup s p a)
    /\ r_desc (analyze_row row) = desc (lookup s p a)
    /\ r_conclusion (analyze_row row) = conclusion (lookup s p a)
    /\ r_tag (analyze_row row) = tag (lookup s p a).
Proof.
  destruct (scenario_of_lookup row) as (s & p & a & Hs & Hp & Ha & Hl).
  exists s, p, a. unfold analyze_row. cbn [r_slope r_pos r_align r_sid r_desc r_conclusion r_tag].
  rewrite Hl. repeat apply conj; first [assumption | reflexivity].
Qed.

(** X2: in a result row the scenario number is
    1 + 4 * (rank of the slope label) + 2 * (rank of the position label)
    + (rank of the alignment label), the ranks following the order Up, Flat,
    Down; Above, Below; Bullish, None.  So the number and the three labels of
    a row determine each other, and two rows with the same number carry the
    same labels, description, guidance and tag. *)
Theorem result_row_number_encodes_labels (row : IndicatorBar) :
  exists s p a,
    r_slope (analyze_row row) = slope_label s
    /\ r_pos (analyze_row row) = position_label p
    /\ r_align (analyze_row row) = alignment_label a
    /\ r_sid (analyze_row row) = scenario_number s p a
    /\ forall other : IndicatorBar,
         r_sid (analyze_row other) = r_sid (analyze_row row)
         <-> (r_slope (analyze_row other) = r_slope (analyze_row row)
              /\ r_pos (analyze_row other) = r_pos (analyze_row row)
              /\ r_align (analyze_row other) = r_align (analyze_row row)).
Proof.
  destruct (analyze_row_lookup row) as (s & p & a & Hs & Hp & Ha & Hid & _).
  exists s, p, a. rewrite lookup_scenario_number in Hid.
  repeat (split; [assumption|]).
  intros other.
  destruct (analyze_row_lookup other) as (s' & p' & a' & Hs' & Hp' & Ha' & Hid' & _).
  rewrite lookup_scenario_number in Hid'.
  rewrite Hs, Hp, Ha, Hid, Hs', Hp', Ha', Hid'. split.
  - intros H. apply scenario_number_inj in H as (-> & -> & ->). auto.
  - intros (H1 & H2 & H3).
    apply slope_label_inj in H1. apply position_label_inj in H2.
    apply alignment_label_inj in H3. now subst.
Qed.

(** X3: whatever the provider answers, [analyze_stock] never shows the
    unknown scenario.  Every result row has an id between 1 and 12; its
    description, guidance and tag are those the dictionary stores under the
    row's own three labels; its date lies in the requested window; and its
    date and close are those of a downloaded row. *)
Theorem analyze_stock_rows_are_regular
    (yf_download : string -> Z -> Z -> list PriceBar)
    (ticker : string) (start_date end_date : Z) (r : ResultRow) :
  In r (results_of (analyze_stock yf_download ticker start_date end_date)) ->
  1 <= r_sid r <= 12
  /\ scenarios !! (r_slope r, r_pos r, r_align r)
     = Some (mkScenario (r_sid r) (r_desc r) (r_conclusion r) (r_tag r))
  /\ mkScenario (r_sid r) (r_desc r) (r_conclusion r) (r_tag r) <> unknown_scenario
  /\ start_date <= r_date r <= end_date
  /\ exists b, In b (downloaded yf_download ticker start_date end_date)
               /\ pb_date b = r_date r /\ pb_close b = r_close r.
Proof.
  rewrite analyze_stock_results. intros Hr.
  apply in_map_iff in Hr as (row & <- & Hrow).
  apply target_rows_In in Hrow as (Hin & Hdate).
  destruct (analyze_row_lookup row) as (s & p & a & Hs & Hp & Ha & Hid & Hd & Hc & Ht).
  pose proof (lookup_sid_range s p a) as Hrange.
  rewrite Hs, Hp, Ha, Hid, Hd, Hc, Ht.
  split; [exact Hrange|].
  split; [destruct s, p, a; vm_compute; reflexivity|].
  split.
  { intros H. apply (f_equal sid) in H.
    change (sid (lookup s p a) = 0) in H. lia. }
  split; [exact Hdate|].
  destruct (add_indicators_In _ _ Hin) as (i & b & Hb & ->).
  exists b. split; [|split; reflexivity].
  apply list_elem_of_In, list_elem_of_lookup. now exists i.
Qed.

(** X4: a table is shown only when it has rows.  When [analyze_stock] shows
    results, they are not empty, the chart has one point per result row, in
    the same order, and the close charted for a row is the close printed in
    that row. *)
Theorem shown_table_is_not_empty
    (yf_download : string -> Z -> Z -> list PriceBar)
    (ticker : string) (start_date end_date : Z)
    (results : list ResultRow) (chart_data : list (float * float * float)) :
  analyze_stock yf_download ticker start_date end_date = Shown results chart_data ->
  results <> []
  /\ length chart_data = length results
  /\ map (fun c => c.1.1) chart_data = map r_close results
  /\ chart_data
     = map (fun row => (Close row, MA20 row, MA60 row))
           (target_rows yf_download ticker start_date end_date).
Proof.
  unfold analyze_stock, target_rows, downloaded.
  destruct (yf_download ticker (start_date - 120) (end_date + 1)) as [|b df];
    [discriminate|].
  destruct (List.filter _ _) as [|row rows] eqn:E; [discriminate|].
  intros H. injection H as <- <-.
  split; [discriminate|].
  split; [simpl; now rewrite !length_map|].
  split; [simpl; now rewrite !map_map|reflexivity].
Qed.

(** ** How many rows, and in which order *)

Lemma NoDup_map_filter {A B : Type} (g : A -> B) (f : A -> bool) (l : list A) :
  List.NoDup (map g l) -> List.NoDup (map g (List.filter f l)).
Proof.
  induction l as [|x l IH]; simpl; intros H; [exact H|].
  apply NoDup_cons_iff in H as [Hx Hl].
  destruct (f x); simpl; [|now apply IH].
  apply NoDup_cons_iff. split; [|now apply IH].
  intros Hin. apply Hx. eapply map_filter_In, Hin.
Qed.

Lemma NoDup_within_length (l : list Z) (lo hi : Z) :
  List.NoDup l -> (forall x, In x l -> lo <= x <= hi) ->
  Z.of_nat (length l) <= Z.max 0 (hi - lo + 1).
Proof.
  intros Hnd Hin.
  set (n := Z.to_nat (hi - lo + 1)).
  assert (Hincl : incl l (map (fun k => lo + Z.of_nat k) (seq 0 n))).
  { intros x Hx. specialize (Hin x Hx). apply in_map_iff.
    exists (Z.to_nat (x - lo)). split; [lia|]. apply in_seq. unfold n. lia. }
  pose proof (NoDup_incl_length Hnd Hincl) as Hlen.
  rewrite length_map, length_seq in Hlen. unfold n in Hlen. lia.
Qed.

Lemma results_dates (yf_download : string -> Z -> Z -> list PriceBar)
    (ticker : string) (start_date end_date : Z) :
  map r_date (results_of (analyze_stock yf_download ticker start_date end_date))
  = map Date (target_rows yf_download ticker start_date end_date).
Proof. rewrite analyze_stock_results, map_map. reflexivity. Qed.

Lemma main_analyzed (yf_download : string -> Z -> Z -> list PriceBar)
    (ticker : string) (start_input end_input : Z) (run_btn : bool) (o : Outcome) :
  main yf_download ticker start_input end_input run_btn = Analyzed o ->
  run_btn = true
  /\ 0 <= end_input - start_input <= 10
  /\ o = analyze_stock yf_download ticker start_input end_input.
Proof.
  unfold main. destruct run_btn; [|discriminate].
  rewrite Z.gtb_ltb.
  destruct (Z.ltb_spec 10 (end_input - start_input)) as [Hl|Hl]; [discriminate|].
  destruct (Z.ltb_spec (end_input - start_input) 0) as [Hn|Hn]; [discriminate|].
  intros Ho. injection Ho as <-. auto with zarith.
Qed.

(** X5: when the downloaded rows have pairwise different dates, the number
    of result rows is at most the number of days of the window, and a request
    that [main] lets through shows at most 11 rows. *)
Theorem window_shows_at_most_eleven_rows
    (yf_download : string -> Z -> Z -> list PriceBar)
    (ticker : string) (start_input end_input : Z) (run_btn : bool) (o : Outcome) :
  List.NoDup (map pb_date (downloaded yf_download ticker start_input end_input)) ->
  main yf_download ticker start_input end_input run_btn = Analyzed o ->
  Z.of_nat (length (results_of o)) <= end_input - start_input + 1
  /\ (length (results_of o) <= 11)%nat.
Proof.
  intros Hnd Hmain. apply main_analyzed in Hmain as (_ & Hdiff & ->).
  assert (Hlen : Z.of_nat (length (results_of
                   (analyze_stock yf_download ticker start_input end_input)))
                 <= Z.max 0 (end_input - start_input + 1)).
  { rewrite <- (length_map r_date), results_dates.
    apply NoDup_within_length.
    - unfold target_rows. apply NoDup_map_filter. now rewrite add_indicators_dates.
    - intros x Hx. apply in_map_iff in Hx as (row & <- & Hrow).
      now apply target_rows_In in Hrow. }
  lia.
Qed.

(** X6: the result rows follow the order of the download.  When the
    downloaded dates are strictly increasing, so are the dates of the result
    rows: the table is chronological and shows no date twice. *)
Theorem results_are_chronological
    (yf_download : string -> Z -> Z -> list PriceBar)
    (ticker : string) (start_date end_date : Z) :
  StronglySorted Z.lt (map pb_date (downloaded yf_download ticker start_date end_date)) ->
  StronglySorted Z.lt
    (map r_date (results_of (analyze_stock yf_download ticker start_date end_date))).
Proof.
  intros H. rewrite results_dates. unfold target_rows.
  apply StronglySorted_map_filter. now rewrite add_indicators_dates.
Qed.

(** ** More binary64 facts: signs around a threshold *)

Module F64Arith.
Import F64 F64Facts.

Lemma eqb_sym (x y : float) : (x =? y)%float = true -> (y =? x)%float = true.
Proof.
  rewrite !FloatAxioms.eqb_spec. unfold SFeqb.
  destruct (SFcompare (Prim2SF x) (Prim2SF y)) as [[| |]|] eqn:E; try discriminate.
  intros _. now rewrite (SFcompare_Eq_sym _ _ E).
Qed.

Lemma SFltb_above_not_negative (t s : spec_float) :
  SFnot_negative t -> SFltb t s = true -> SFltb (S754_zero false) s = true.
Proof.
  destruct t as [b|b| |b m e], s as [c|c| |c n f]; simpl; intros Ht H;
    subst; try discriminate; try reflexivity;
    destruct c; try discriminate; try reflexivity; destruct b; discriminate.
Qed.

Lemma SFltb_below_opp_not_negative (t s : spec_float) :
  SFnot_negative t -> SFltb s (SFopp t) = true -> SFltb s (S754_zero false) = true.
Proof.
  destruct t as [b|b| |b m e], s as [c|c| |c n f]; simpl; intros Ht H;
    subst; try discriminate; try reflexivity;
    destruct c; try discriminate; try reflexivity; destruct b; discriminate.
Qed.

(** Above a threshold [m * c] that is not negative means above zero, and
    below its opposite means below zero. *)
Lemma above_threshold_positive (m c s : float) :
  not_negative m -> (0 <? c)%float = true ->
  (m * c <? s)%float = true -> (0 <? s)%float = true.
Proof.
  unfold not_negative. rewrite !FloatAxioms.ltb_spec, FloatAxioms.mul_spec.
  change (Prim2SF 0) with (S754_zero false).
  intros Hm Hc. apply SFltb_above_not_negative, SFmul_not_negative.
  - exact Hm.
  - now apply SFltb_zero_not_negative.
Qed.

Lemma below_threshold_negative (m c s : float) :
  not_negative m -> (0 <? c)%float = true ->
  (s <? - (m * c))%float = true -> (s <? 0)%float = true.
Proof.
  unfold not_negative.
  rewrite !FloatAxioms.ltb_spec, FloatAxioms.opp_spec, FloatAxioms.mul_spec.
  change (Prim2SF 0) with (S754_zero false).
  intros Hm Hc. apply SFltb_below_opp_not_negative, SFmul_not_negative.
  - exact Hm.
  - now apply SFltb_zero_not_negative.
Qed.

End F64Arith.

(** ** The direction of the slope *)

(** X7: on a frame of positive closes the label agrees with the direction of
    the 20-row mean.  A row labelled Up has a strictly positive slope, a row
    labelled Down a strictly negative one, and a row whose slope is zero is
    Flat. *)
Theorem slope_label_follows_sign (df : list PriceBar) (row : IndicatorBar) :
  (forall b, In b df -> (0 <? pb_close b)%float = true) ->
  In row (add_indicators df) ->
  (slope_status row = slope_label Up -> (0 <? MA20_Slope_Val row)%float = true)
  /\ (slope_status row = slope_label Down -> (MA20_Slope_Val row <? 0)%float = true)
  /\ ((MA20_Slope_Val row =? 0)%float = true -> slope_status row = slope_label Flat).
Proof.
  intros Hpos Hin.
  pose proof (positive_closes_MA20_not_negative df row Hpos Hin) as Hnn.
  assert (Hup : slope_status row = slope_label Up ->
                (0 <? MA20_Slope_Val row)%float = true).
  { rewrite slope_status_up. unfold slope_threshold.
    now apply F64Arith.above_threshold_positive. }
  assert (Hdown : slope_status row = slope_label Down ->
                  (MA20_Slope_Val row <? 0)%float = true).
  { rewrite slope_status_down. unfold slope_threshold. intros [_ H].
    now apply (F64Arith.below_threshold_negative (MA20 row) 0.0005). }
  split; [exact Hup|]. split; [exact Hdown|].
  intros Hzero.
  destruct (slope_status_cases row) as [[| |] Hs]; [| exact Hs |].
  - apply Hup in Hs. rewrite (F64Facts.eqb_not_ltb _ _ Hzero) in Hs. discriminate.
  - apply Hdown in Hs. apply F64Arith.eqb_sym in Hzero.
    rewrite (F64Facts.eqb_not_ltb _ _ Hzero) in Hs. discriminate.
Qed.

(** ** Which rows an indicator depends on *)

Lemma add_indicators_app_take (df extra : list PriceBar) :
  take (length df) (add_indicators (df ++ extra)) = add_indicators df.
Proof.
  apply list_eq. intros i.
  destruct (decide (i < length df)%nat) as [Hi|Hi].
  - rewrite lookup_take_lt by exact Hi. rewrite !add_indicators_lookup.
    rewrite lookup_app_l by exact Hi.
    destruct (df !! i) as [b|]; [|reflexivity]. simpl. f_equal.
    unfold indicator_bar_at. rewrite map_app.
    assert (Hc : (i < length (map pb_close df))%nat) by now rewrite length_map.
    rewrite !rolling_mean_app by (lia || exact Hc).
    now rewrite diff_rolling_mean_app by exact Hc.
  - rewrite lookup_take_ge by lia. symmetry. apply lookup_ge_None.
    rewrite length_add_indicators. lia.
Qed.

Lemma add_indicators_app_drop (df extra : list PriceBar) :
  map Date (drop (length df) (add_indicators (df ++ extra))) = map pb_date extra.
Proof.
  rewrite <- skipn_map, add_indicators_dates, map_app.
  rewrite <- (length_map pb_date df). apply drop_app_length.
Qed.

(** X8: an indicator looks backwards only.  Rows appended to a frame leave
    the indicators of the rows before them unchanged, and the appended rows
    keep their dates. *)
Theorem later_rows_leave_indicators (df extra : list PriceBar) :
  take (length df) (add_indicators (df ++ extra)) = add_indicators df
  /\ map Date (drop (length df) (add_indicators (df ++ extra))) = map pb_date extra.
Proof.
  split; [apply add_indicators_app_take | apply add_indicators_app_drop].
Qed.

Lemma filter_all_false {A : Type} (f : A -> bool) (l : list A) :
  (forall x, In x l -> f x = false) -> List.filter f l = [].
Proof.
  induction l as [|x l IH]; simpl; intros H; [reflexivity|].
  rewrite (H x) by now left. apply IH. intros y Hy. apply H. now right.
Qed.

Lemma analyze_stock_outcome (yf_download : string -> Z -> Z -> list PriceBar)
    (ticker : string) (start_date end_date : Z) :
  downloaded yf_download ticker start_date end_date <> [] ->
  analyze_stock yf_download ticker start_date end_date
  = match target_rows yf_download ticker start_date end_date with
    | [] => NoTradingWarning
    | _ :: _ =>
        Shown (map analyze_row (target_rows yf_download ticker start_date end_date))
              (map (fun row => (Close row, MA20 row, MA60 row))
                   (target_rows yf_download ticker start_date end_date))
    end.
Proof.
  unfold analyze_stock, target_rows, downloaded.
  destruct (yf_download ticker (start_date - 120) (end_date + 1)) as [|b df];
    [intros H; now contradiction H|].
  intros _. destruct (List.filter _ _); reflexivity.
Qed.

(** X10: rows dated after the window do not matter.  If a second provider
    answers with the same rows followed by rows that are all dated after the
    end date, the rows kept for the window and the result rows are the same,
    and so is the whole outcome when the first answer is not empty. *)
Theorem rows_after_window_are_ignored
    (yf1 yf2 : string -> Z -> Z -> list PriceBar)
    (ticker : string) (start_date end_date : Z) (extra : list PriceBar) :
  downloaded yf2 ticker start_date end_date
  = (downloaded yf1 ticker start_date end_date ++ extra)%list ->
  (forall b, In b extra -> end_date < pb_date b) ->
  target_rows yf2 ticker start_date end_date = target_rows yf1 ticker start_date end_date
  /\ results_of (analyze_stock yf2 ticker start_date end_date)
     = results_of (analyze_stock yf1 ticker start_date end_date)
  /\ (downloaded yf1 ticker start_date end_date <> [] ->
      analyze_stock yf2 ticker start_date end_date
      = analyze_stock yf1 ticker start_date end_date).
Proof.
  intros Hdl Hlate.
  assert (Ht : target_rows yf2 ticker start_date end_date
               = target_rows yf1 ticker start_date end_date).
  { unfold target_rows. rewrite Hdl.
    set (df := downloaded yf1 ticker start_date end_date).
    rewrite <- (take_drop (length df) (add_indicators (df ++ extra))).
    rewrite List.filter_app, add_indicators_app_take.
    rewrite (filter_all_false _ (drop _ _)); [apply app_nil_r|].
    intros row Hrow. apply (in_map Date) in Hrow.
    rewrite add_indicators_app_drop in Hrow.
    apply in_map_iff in Hrow as (b & Hb & Hin). specialize (Hlate b Hin).
    unfold in_range. apply andb_false_iff. right. apply Z.leb_gt. lia. }
  split; [exact Ht|]. split.
  - now rewrite !analyze_stock_results, Ht.
  - intros Hne. rewrite !analyze_stock_outcome, Ht; [reflexivity | exact Hne |].
    rewrite Hdl. intros H. apply app_eq_nil in H as [H _]. now apply Hne.
Qed.

(** ** Rows without enough history, and missing closes *)

Lemma scenario_of_absent_MA20 (row : IndicatorBar) :
  F64.absent (MA20 row) ->
  scenario_of row = lookup Flat Below NoAlignment.
Proof.
  intros H. unfold scenario_of, lookup.
  rewrite slope_status_absent, pos_status_absent, align_status_absent_MA20; auto.
Qed.

(** X11: the first rows of a frame are labelled by default, whatever the
    prices.  Each of the first 19 rows has no 20-row mean and gets Flat,
    Below, None and scenario 8; a slope label other than Flat can appear
    from the 21st row on only, and Bullish from the 60th row on only. *)
Theorem early_rows_get_default_labels (df : list PriceBar) (i : nat) (row : IndicatorBar) :
  add_indicators df !! i = Some row ->
  ((i < 19)%nat ->
   F64.absent (MA20 row)
   /\ r_slope (analyze_row row) = slope_label Flat
   /\ r_pos (analyze_row row) = position_label Below
   /\ r_align (analyze_row row) = alignment_label NoAlignment
   /\ r_sid (analyze_row row) = 8)
  /\ ((i < 20)%nat -> r_slope (analyze_row row) = slope_label Flat)
  /\ ((i < 59)%nat -> r_align (analyze_row row) = alignment_label NoAlignment).
Proof.
  rewrite add_indicators_lookup. intros Hrow.
  destruct (df !! i) as [b|]; [|discriminate]. injection Hrow as <-.
  split; [|split].
  - intros Hi.
    assert (H20 : F64.absent (MA20 (indicator_bar_at df i b))).
    { unfold indicator_bar_at. cbn [MA20]. apply rolling_mean_short; lia. }
    split; [exact H20|].
    split; [apply slope_status_absent; now left|].
    split; [apply pos_status_absent; now left|].
    split; [now apply align_status_absent_MA20|].
    change (sid (scenario_of (indicator_bar_at df i b)) = 8).
    rewrite scenario_of_absent_MA20 by exact H20. vm_compute. reflexivity.
  - intros Hi. apply slope_status_absent. right.
    unfold indicator_bar_at. cbn [MA20_Slope_Val].
    apply diff_nth_absent. destruct i as [|j]; [auto|].
    right. right. exists j. split; [reflexivity|]. apply rolling_mean_short; lia.
  - intros Hi. apply align_status_absent_MA60.
    unfold indicator_bar_at. cbn [MA60]. apply rolling_mean_short; lia.
Qed.

(** X12: a missing close spreads.  If the close of row [k] is NaN, every
    moving average whose window contains row [k] is absent: MA5 on rows
    [k .. k+4], MA10 on [k .. k+9], MA20 on [k .. k+19], MA60 on
    [k .. k+59], and the slope on [k .. k+20].  So the rows [k .. k+19] get
    scenario 8, the rows up to [k+20] are Flat and the rows up to [k+59]
    have no alignment, whatever the other closes are. *)
Theorem missing_close_spreads (df : list PriceBar) (k i : nat)
    (bk : PriceBar) (row : IndicatorBar) :
  df !! k = Some bk -> F64.absent (pb_close bk) ->
  add_indicators df !! i = Some row ->
  (k <= i)%nat ->
  ((i < k + 5)%nat -> F64.absent (MA5 row))
  /\ ((i < k + 10)%nat -> F64.absent (MA10 row))
  /\ ((i < k + 20)%nat -> F64.absent (MA20 row) /\ r_sid (analyze_row row) = 8)
  /\ ((i <= k + 20)%nat ->
      F64.absent (MA20_Slope_Val row) /\ r_slope (analyze_row row) = slope_label Flat)
  /\ ((i < k + 60)%nat ->
      F64.absent (MA60 row) /\ r_align (analyze_row row) = alignment_label NoAlignment).
Proof.
  intros Hk Hc. rewrite add_indicators_lookup. intros Hrow Hki.
  destruct (df !! i) as [b|]; [|discriminate]. injection Hrow as <-.
  assert (Hck : map pb_close df !! k = Some (pb_close bk)).
  { change (map pb_close df) with (pb_close <$> df).
    now rewrite list_lookup_fmap, Hk. }
  assert (Habs : forall N j, (2 <= N)%nat -> (k <= j < k + N)%nat ->
                             F64.absent (nth j (rolling_mean N (map pb_close df)) nan)).
  { intros N j HN Hj. now apply (rolling_mean_missing N _ k j (pb_close bk)). }
  unfold indicator_bar_at.
  split; [intros; cbn [MA5]; apply Habs; lia|].
  split; [intros; cbn [MA10]; apply Habs; lia|].
  split.
  { intros Hi. fold (indicator_bar_at df i b).
    assert (H20 : F64.absent (MA20 (indicator_bar_at df i b))).
    { unfold indicator_bar_at. cbn [MA20]. apply Habs; lia. }
    split; [exact H20|].
    change (sid (scenario_of (indicator_bar_at df i b)) = 8).
    rewrite scenario_of_absent_MA20 by exact H20. vm_compute. reflexivity. }
  split.
  { intros Hi. fold (indicator_bar_at df i b).
    assert (Hs : F64.absent (MA20_Slope_Val (indicator_bar_at df i b))).
    { unfold indicator_bar_at. cbn [MA20_Slope_Val]. apply diff_nth_absent.
      destruct (decide (i < k + 20)%nat) as [Hlt|Hge].
      - left. apply Habs; lia.
      - right. right. exists (k + 19)%nat. split; [lia|]. apply Habs; lia. }
    split; [exact Hs|]. apply slope_status_absent. now right. }
  intros Hi. fold (indicator_bar_at df i b).
  assert (H60 : F64.absent (MA60 (indicator_bar_at df i b))).
  { unfold indicator_bar_at. cbn [MA60]. apply Habs; lia. }
  split; [exact H60 | now apply align_status_absent_MA60].
Qed.

(** ** The further properties at concrete inputs *)

Lemma analyze_stock_rows_are_regular_witness :
  In (analyze_row fresh_row)
     (results_of (analyze_stock (provider_of lone_bar) "2330.TW"
                    (ymd2ord 2024 1 2) (ymd2ord 2024 1 2)))
  /\ 1 <= r_sid (analyze_row fresh_row) <= 12.
Proof.
  assert (Hin : In (analyze_row fresh_row)
                   (results_of (analyze_stock (provider_of lone_bar) "2330.TW"
                                  (ymd2ord 2024 1 2) (ymd2ord 2024 1 2)))).
  { left. reflexivity. }
  split; [exact Hin|].
  exact (proj1 (analyze_stock_rows_are_regular _ _ _ _ _ Hin)).
Defined.

Lemma shown_table_is_not_empty_witness :
  analyze_stock (provider_of lone_bar) "2330.TW" (ymd2ord 2024 1 2) (ymd2ord 2024 1 2)
  = Shown [analyze_row fresh_row] [(100%float, nan, nan)]
  /\ length [(100%float, nan, nan)] = length [analyze_row fresh_row].
Proof.
  assert (H : analyze_stock (provider_of lone_bar) "2330.TW"
                (ymd2ord 2024 1 2) (ymd2ord 2024 1 2)
              = Shown [analyze_row fresh_row] [(100%float, nan, nan)]) by reflexivity.
  split; [exact H|].
  exact (proj1 (proj2 (shown_table_is_not_empty _ _ _ _ _ _ H))).
Defined.

Lemma window_shows_at_most_eleven_rows_witness :
  (List.NoDup (map pb_date (downloaded (provider_of gapped_series) "2330.TW"
                              (ymd2ord 2024 1 2) (ymd2ord 2024 1 4)))
   /\ main (provider_of gapped_series) "2330.TW" (ymd2ord 2024 1 2) (ymd2ord 2024 1 4) true
      = Analyzed (analyze_stock (provider_of gapped_series) "2330.TW"
                    (ymd2ord 2024 1 2) (ymd2ord 2024 1 4)))
  /\ (length (results_of (analyze_stock (provider_of gapped_series) "2330.TW"
                            (ymd2ord 2024 1 2) (ymd2ord 2024 1 4))) <= 11)%nat.
Proof.
  assert (Hnd : List.NoDup (map pb_date (downloaded (provider_of gapped_series) "2330.TW"
                                           (ymd2ord 2024 1 2) (ymd2ord 2024 1 4)))).
  { vm_compute. repeat constructor; simpl; intuition discriminate. }
  assert (Hm : main (provider_of gapped_series) "2330.TW"
                 (ymd2ord 2024 1 2) (ymd2ord 2024 1 4) true
               = Analyzed (analyze_stock (provider_of gapped_series) "2330.TW"
                             (ymd2ord 2024 1 2) (ymd2ord 2024 1 4))) by reflexivity.
  split; [split; assumption|].
  exact (proj2 (window_shows_at_most_eleven_rows _ _ _ _ _ _ Hnd Hm)).
Defined.

Lemma results_are_chronological_witness :
  StronglySorted Z.lt
    (map pb_date (downloaded (provider_of gapped_series) "2330.TW"
                    (ymd2ord 2024 1 2) (ymd2ord 2024 1 4)))
  /\ StronglySorted Z.lt
       (map r_date (results_of (analyze_stock (provider_of gapped_series) "2330.TW"
                                  (ymd2ord 2024 1 2) (ymd2ord 2024 1 4)))).
Proof.
  assert (H : StronglySorted Z.lt
                (map pb_date (downloaded (provider_of gapped_series) "2330.TW"
                                (ymd2ord 2024 1 2) (ymd2ord 2024 1 4)))).
  { vm_compute. repeat constructor. }
  split; [exact H | exact (results_are_chronological _ _ _ _ H)].
Defined.

Lemma slope_label_follows_sign_witness :
  ((forall b, In b flat_series -> (0 <? pb_close b)%float = true)
   /\ In (mkIndicatorBar (ymd2ord 2024 3 5) 100 100 100 100 100 0)
         (add_indicators flat_series))
  /\ slope_status (mkIndicatorBar (ymd2ord 2024 3 5) 100 100 100 100 100 0)
     = slope_label Flat.
Proof.
  assert (Hpos : forall b, In b flat_series -> (0 <? pb_close b)%float = true).
  { intros b Hb. unfold flat_series in Hb.
    apply in_map_iff in Hb as (i & <- & _). reflexivity. }
  assert (Hin : In (mkIndicatorBar (ymd2ord 2024 3 5) 100 100 100 100 100 0)
                   (add_indicators flat_series)).
  { apply list_elem_of_In, list_elem_of_lookup. exists 64%nat. vm_compute. reflexivity. }
  split; [split; assumption|].
  apply (proj2 (proj2 (slope_label_follows_sign _ _ Hpos Hin))). reflexivity.
Defined.

Lemma rows_after_window_are_ignored_witness :
  (downloaded (provider_of gapped_series) "2330.TW" (ymd2ord 2024 1 2) (ymd2ord 2024 1 2)
   = (downloaded (provider_of lone_bar) "2330.TW" (ymd2ord 2024 1 2) (ymd2ord 2024 1 2)
      ++ [ mkPriceBar (ymd2ord 2024 1 3) nan; mkPriceBar (ymd2ord 2024 1 4) 101%float ])%list
   /\ forall b, In b [ mkPriceBar (ymd2ord 2024 1 3) nan;
                       mkPriceBar (ymd2ord 2024 1 4) 101%float ] ->
                ymd2ord 2024 1 2 < pb_date b)
  /\ analyze_stock (provider_of gapped_series) "2330.TW" (ymd2ord 2024 1 2) (ymd2ord 2024 1 2)
     = analyze_stock (provider_of lone_bar) "2330.TW" (ymd2ord 2024 1 2) (ymd2ord 2024 1 2).
Proof.
  assert (Hdl : downloaded (provider_of gapped_series) "2330.TW"
                  (ymd2ord 2024 1 2) (ymd2ord 2024 1 2)
                = (downloaded (provider_of lone_bar) "2330.TW"
                     (ymd2ord 2024 1 2) (ymd2ord 2024 1 2)
                   ++ [ mkPriceBar (ymd2ord 2024 1 3) nan;
                        mkPriceBar (ymd2ord 2024 1 4) 101%float ])%list) by reflexivity.
  assert (Hlate : forall b, In b [ mkPriceBar (ymd2ord 2024 1 3) nan;
                                   mkPriceBar (ymd2ord 2024 1 4) 101%float ] ->
                            ymd2ord 2024 1 2 < pb_date b).
  { intros b [<-|[<-|[]]]; reflexivity. }
  split; [split; assumption|].
  apply (proj2 (proj2 (rows_after_window_are_ignored _ _ _ _ _ _ Hdl Hlate))).
  discriminate.
Defined.

Lemma early_rows_get_default_labels_witness :
  (add_indicators lone_bar !! 0%nat = Some fresh_row /\ (0 < 19)%nat)
  /\ r_sid (analyze_row fresh_row) = 8.
Proof.
  assert (H : add_indicators lone_bar !! 0%nat = Some fresh_row) by reflexivity.
  assert (Hi : (0 < 19)%nat) by lia.
  split; [split; assumption|].
  destruct (early_rows_get_default_labels lone_bar 0 fresh_row H) as (Hearly & _ & _).
  exact (proj2 (proj2 (proj2 (proj2 (Hearly Hi))))).
Defined.

Lemma missing_close_spreads_witness :
  (holed_series !! 50%nat = Some (mkPriceBar (ymd2ord 2024 2 20) nan)
   /\ F64.absent (pb_close (mkPriceBar (ymd2ord 2024 2 20) nan))
   /\ add_indicators holed_series !! 64%nat
      = Some (mkIndicatorBar (ymd2ord 2024 3 5) 100 100 100 nan nan nan)
   /\ (50 <= 64)%nat /\ (64 < 50 + 20)%nat)
  /\ r_sid (analyze_row (mkIndicatorBar (ymd2ord 2024 3 5) 100 100 100 nan nan nan)) = 8.
Proof.
  assert (Hk : holed_series !! 50%nat = Some (mkPriceBar (ymd2ord 2024 2 20) nan))
    by reflexivity.
  assert (Hc : F64.absent (pb_close (mkPriceBar (ymd2ord 2024 2 20) nan))) by reflexivity.
  assert (Hrow : add_indicators holed_series !! 64%nat
                 = Some (mkIndicatorBar (ymd2ord 2024 3 5) 100 100 100 nan nan nan)).
  { vm_compute. reflexivity. }
  assert (Hki : (50 <= 64)%nat) by lia.
  assert (Hi : (64 < 50 + 20)%nat) by lia.
  split; [repeat split; assumption|].
  destruct (missing_close_spreads _ _ _ _ _ Hk Hc Hrow Hki) as (_ & _ & H20 & _).
  exact (proj2 (H20 Hi)).
Defined.

(** ** The two slope tests mirror each other *)

Lemma SFltb_opp (s t : spec_float) : SFltb (SFopp s) (SFopp t) = SFltb t s.
Proof.
  destruct s as [a|a| |a m e], t as [b|b| |b n f]; simpl;
    try destruct a; try destruct b; simpl; try reflexivity; unfold SFltb; simpl;
    rewrite (Z.compare_antisym e f);
    change (Pos.compare_cont Eq n m) with (Pos.compare n m);
    change (Pos.compare_cont Eq m n) with (Pos.compare m n);
    rewrite (Pos.compare_antisym m n);
    destruct (e ?= f); simpl; try reflexivity;
    destruct (Pos.compare m n); reflexivity.
Qed.

Lemma ltb_opp (x y : float) : (- x <? - y)%float = (y <? x)%float.
Proof. rewrite !FloatAxioms.ltb_spec, !FloatAxioms.opp_spec. apply SFltb_opp. Qed.

Lemma opp_involutive (x : float) : (- - x)%float = x.
Proof.
  apply Prim2SF_inj. rewrite !FloatAxioms.opp_spec.
  destruct (Prim2SF x) as [s|s| |s m e]; simpl; now rewrite ?negb_involutive.
Qed.

Lemma slope_status_not_negative (row : IndicatorBar) :
  F64.not_negative (MA20 row) ->
  (slope_status row = slope_label Down
   <-> (MA20_Slope_Val row <? - slope_threshold row)%float = true).
Proof.
  intros Hnn. rewrite slope_status_down. split; [tauto|]. intros Hlt. split; [|exact Hlt].
  destruct (slope_threshold row <? MA20_Slope_Val row)%float eqn:Hgt; [|reflexivity].
  unfold slope_threshold in *.
  apply (F64Arith.above_threshold_positive (MA20 row) 0.0005 _ Hnn eq_refl) in Hgt.
  apply (F64Arith.below_threshold_negative (MA20 row) 0.0005 _ Hnn eq_refl) in Hlt.
  rewrite FloatAxioms.ltb_spec in Hgt, Hlt.
  change (Prim2SF 0) with (S754_zero false) in Hgt, Hlt.
  destruct (Prim2SF (MA20_Slope_Val row)) as [s|s| |s m e]; simpl in *;
    try discriminate; destruct s; discriminate.
Qed.

(** X13: the threshold is symmetric.  For a row of a frame of positive
    closes, replacing the slope by its opposite exchanges Up and Down and
    keeps Flat. *)
Theorem opposite_slope_mirrors_label (df : list PriceBar) (row : IndicatorBar)
    (s : SlopeDirection) :
  (forall b, In b df -> (0 <? pb_close b)%float = true) ->
  In row (add_indicators df) ->
  slope_status row = slope_label s ->
  slope_status (with_slope row (- MA20_Slope_Val row)) = slope_label (mirror s).
Proof.
  intros Hpos Hin Hs.
  pose proof (positive_closes_MA20_not_negative df row Hpos Hin) as Hnn.
  assert (Hnn' : F64.not_negative (MA20 (with_slope row (- MA20_Slope_Val row))))
    by exact Hnn.
  set (thr := slope_threshold row) in *.
  assert (Hthr : slope_threshold (with_slope row (- MA20_Slope_Val row)) = thr)
    by reflexivity.
  assert (Hup : (thr <? - MA20_Slope_Val row)%float
                = (MA20_Slope_Val row <? - thr)%float).
  { rewrite <- (opp_involutive thr) at 1. apply ltb_opp. }
  assert (Hdn : (- MA20_Slope_Val row <? - thr)%float
                = (thr <? MA20_Slope_Val row)%float) by apply ltb_opp.
  destruct s; simpl.
  - apply slope_status_up in Hs. apply slope_status_not_negative; [exact Hnn'|].
    rewrite Hthr. simpl. now rewrite Hdn.
  - apply slope_status_flat in Hs as [H1 H2]. apply slope_status_flat.
    rewrite Hthr. simpl. fold thr in H1, H2. now rewrite Hup, Hdn.
  - apply slope_status_not_negative in Hs; [|exact Hnn]. apply slope_status_up.
    rewrite Hthr. simpl. now rewrite Hup.
Qed.

Lemma opposite_slope_mirrors_label_witness :
  ((forall b, In b flat_series -> (0 <? pb_close b)%float = true)
   /\ In (mkIndicatorBar (ymd2ord 2024 3 5) 100 100 100 100 100 0)
         (add_indicators flat_series)
   /\ slope_status (mkIndicatorBar (ymd2ord 2024 3 5) 100 100 100 100 100 0)
      = slope_label Flat)
  /\ slope_status (mkIndicatorBar (ymd2ord 2024 3 5) 100 100 100 100 100 (-0))
     = slope_label Flat.
Proof.
  assert (Hpos : forall b, In b flat_series -> (0 <? pb_close b)%float = true).
  { intros b Hb. unfold flat_series in Hb.
    apply in_map_iff in Hb as (i & <- & _). reflexivity. }
  assert (Hin : In (mkIndicatorBar (ymd2ord 2024 3 5) 100 100 100 100 100 0)
                   (add_indicators flat_series)).
  { apply list_elem_of_In, list_elem_of_lookup. exists 64%nat. vm_compute. reflexivity. }
  assert (Hs : slope_status (mkIndicatorBar (ymd2ord 2024 3 5) 100 100 100 100 100 0)
               = slope_label Flat) by reflexivity.
  split; [repeat split; assumption|].
  exact (opposite_slope_mirrors_label _ _ Flat Hpos Hin Hs).
Defined.

(** ** The frame with its indicators, and a constant price *)

(** X14: the frame with indicators has one row per downloaded row, with the
    same dates and closes in the same order; MA5, MA10, MA20 and MA60 are
    absent on the first 4, 9, 19 and 59 rows; the slope is absent on the
    first row and is, on every other row, the 20-row mean of the row minus
    that of the row before, hence absent when either of the two is; and an
    empty frame gives an empty frame. *)
Theorem indicator_frame_structure (df : list PriceBar) :
  length (add_indicators df) = length df
  /\ map Date (add_indicators df) = map pb_date df
  /\ map Close (add_indicators df) = map pb_close df
  /\ (forall i row, add_indicators df !! i = Some row ->
        ((i < 4)%nat -> F64.absent (MA5 row))
        /\ ((i < 9)%nat -> F64.absent (MA10 row))
        /\ ((i < 19)%nat -> F64.absent (MA20 row))
        /\ ((i < 59)%nat -> F64.absent (MA60 row))
        /\ (i = O -> F64.absent (MA20_Slope_Val row))
        /\ (forall j prev, i = S j -> add_indicators df !! j = Some prev ->
              MA20_Slope_Val row = (MA20 row - MA20 prev)%float
              /\ (F64.absent (MA20 row) \/ F64.absent (MA20 prev) ->
                  F64.absent (MA20_Slope_Val row))))
  /\ add_indicators [] = [].
Proof.
  split; [apply length_add_indicators|].
  split; [apply add_indicators_dates|].
  split; [apply add_indicators_closes|].
  split; [|reflexivity].
  intros i row. rewrite add_indicators_lookup. intros Hrow.
  destruct (df !! i) as [b|] eqn:Hb; [|discriminate]. injection Hrow as <-.
  unfold indicator_bar_at. cbn [MA5 MA10 MA20 MA60 MA20_Slope_Val].
  split; [intros; apply rolling_mean_short; lia|].
  split; [intros; apply rolling_mean_short; lia|].
  split; [intros; apply rolling_mean_short; lia|].
  split; [intros; apply rolling_mean_short; lia|].
  split; [intros ->; apply diff_nth_absent; auto|].
  intros j prev -> Hprev. rewrite add_indicators_lookup in Hprev.
  destruct (df !! j) as [b'|]; [|discriminate]. injection Hprev as <-.
  cbn [MA20].
  assert (Hdiff : nth (S j) (diff (rolling_mean 20 (map pb_close df))) nan
                  = (nth (S j) (rolling_mean 20 (map pb_close df)) nan
                     - nth j (rolling_mean 20 (map pb_close df)) nan)%float).
  { apply diff_nth. rewrite length_rolling_mean, length_map.
    eapply lookup_lt_Some, Hb. }
  split; [exact Hdiff|]. rewrite Hdiff. intros [H|H].
  - now apply F64Facts.sub_absent_l.
  - now apply F64Facts.sub_absent_r.
Qed.







Lemma indicator_frame_structure_witness :
  add_indicators flat_series !! 64%nat
  = Some (mkIndicatorBar (ymd2ord 2024 3 5) 100 100 100 100 100 0)
  /\ add_indicators flat_series !! 63%nat
     = Some (mkIndicatorBar (ymd2ord 2024 3 4) 100 100 100 100 100 0)
  /\ (0 = 100 - 100)%float.
Proof.
  assert (H64 : add_indicators flat_series !! 64%nat
                = Some (mkIndicatorBar (ymd2ord 2024 3 5) 100 100 100 100 100 0)).
  { vm_compute. reflexivity. }
  assert (H63 : add_indicators flat_series !! 63%nat
                = Some (mkIndicatorBar (ymd2ord 2024 3 4) 100 100 100 100 100 0)).
  { vm_compute. reflexivity. }
  split; [exact H64|]. split; [exact H63|].
  destruct (indicator_frame_structure flat_series) as (_ & _ & _ & Hrows & _).
  destruct (Hrows 64%nat _ H64) as (_ & _ & _ & _ & _ & Hdiff).
  exact (proj1 (Hdiff 63%nat _ eq_refl H63)).
Defined.

